(** * convert_manuals: the Markdown post-processing pipeline

    A shallow embedding of [src/convert_manuals.py]: the table-row splitter,
    the summary-table classifier and reformatter, the table-block rewriter,
    the indented-code-block converter, the blank-line collapser and the final
    text assembly of [convert_file], followed by the properties of each. *)

From Stdlib Require Import List NArith Bool Arith Lia String Ascii.
Import ListNotations.

Set Implicit Arguments.

(** ** Python strings

    A Python [str] is a sequence of Unicode code points.  A character is
    modelled as the number of its code point and a string as a list of
    characters, so that every statement below quantifies over all strings
    the program can receive. *)

Definition char := N.
Definition str := list char.

Definition chr (a : ascii) : char := N_of_ascii a.
Definition lit (s : string) : str := map N_of_ascii (list_ascii_of_string s).
Arguments chr a%_char.
Arguments lit s%_string.

Definition NL : char := 10%N.
Definition NBSP : char := 160%N.

Module Py.

(** [str.isspace] on one character; also the class [\s] of [re] on [str]
    patterns.  The code points are those of CPython's
    [_PyUnicode_IsWhitespace]. *)
Definition isspace (c : char) : bool :=
  ((9 <=? c) && (c <=? 13) || (28 <=? c) && (c <=? 32)
   || (c =? 133) || (c =? 160) || (c =? 5760)
   || (8192 <=? c) && (c <=? 8202)
   || (c =? 8232) || (c =? 8233) || (c =? 8239) || (c =? 8287)
   || (c =? 12288))%N.

(** [s == ''] for a string, [not xs] for a list. *)
Definition isempty (A : Type) (s : list A) : bool :=
  match s with [] => true | _ :: _ => false end.

(** Truthiness of a string or of a list: [if s:]. *)
Definition truthy (A : Type) (s : list A) : bool := negb (isempty s).

Fixpoint drop_while (A : Type) (p : A -> bool) (s : list A) : list A :=
  match s with
  | [] => []
  | c :: t => if p c then drop_while p t else s
  end.

Definition drop_while_end (A : Type) (p : A -> bool) (s : list A) : list A :=
  rev (drop_while p (rev s)).

(** [s.lstrip()], [s.rstrip()], [s.strip()]. *)
Definition lstrip (s : str) : str := drop_while isspace s.
Definition rstrip (s : str) : str := drop_while_end isspace s.
Definition strip (s : str) : str := lstrip (rstrip s).

(** [s.rstrip(chars)]. *)
Definition rstrip_chars (chars s : str) : str :=
  drop_while_end (fun c => existsb (N.eqb c) chars) s.

(** [s.startswith(p)]. *)
Fixpoint startswith (s p : str) {struct p} : bool :=
  match p, s with
  | [], _ => true
  | _ :: _, [] => false
  | a :: p', c :: s' => (c =? a)%N && startswith s' p'
  end.

(** [sub in s]. *)
Fixpoint contains (s sub : str) : bool :=
  startswith s sub ||
  match s with
  | [] => false
  | _ :: t => contains t sub
  end.

(** [s.replace(old, new)] for a non-empty [old]: matches are found from
    the left and do not overlap.  [skip] counts the characters of a match
    still to be passed over. *)
Fixpoint replace_from (old new : str) (skip : nat) (s : str) : str :=
  match s with
  | [] => []
  | c :: t =>
      match skip with
      | S k => replace_from old new k t
      | O =>
          if startswith s old
          then new ++ replace_from old new (List.length old - 1) t
          else c :: replace_from old new 0 t
      end
  end.

Definition replace (old new s : str) : str := replace_from old new 0 s.

(** [sep.join(xs)]. *)
Fixpoint join (sep : str) (xs : list str) : str :=
  match xs with
  | [] => []
  | x :: t =>
      match t with
      | [] => x
      | _ :: _ => x ++ sep ++ join sep t
      end
  end.

(** [s[n:]]. *)
Definition slice_from (n : nat) (s : str) : str := skipn n s.

End Py.

(** ** SUMMARY_ROW_RE

    The compiled pattern of the module, used through [.match] only.  It
    reads, from the start of the string: two asterisks; group 1, one or more
    characters, lazy; a colon and two asterisks; any run of whitespace;
    group 2, any run of characters, greedy; the end anchor.
    The matcher follows the backtracking order of [re]: a lazy quantifier
    tries the continuation before taking one more character, a greedy one
    takes one more character first and falls back to the continuation.
    [.] is any character but a newline; [$] holds at the end of the string
    and just before a newline that ends it. *)

Module SummaryRowRe.

Definition dot (c : char) : bool := negb (c =? NL)%N.

Definition at_dollar (r : str) : bool :=
  match r with
  | [] => true
  | [c] => (c =? NL)%N
  | _ :: _ :: _ => false
  end.

(** Group 2 and the end anchor: the text of the group, when the rest of
    the pattern matches. *)
Fixpoint group2_dollar (r : str) : option str :=
  match r with
  | [] => Some []
  | c :: t =>
      let stop := if at_dollar r then Some [] else None in
      if dot c then
        match group2_dollar t with
        | Some g => Some (c :: g)
        | None => stop
        end
      else stop
  end.

(** The whitespace run, then group 2 and the end anchor. *)
Fixpoint spaces_group2_dollar (r : str) : option str :=
  match r with
  | [] => group2_dollar r
  | c :: t =>
      if Py.isspace c then
        match spaces_group2_dollar t with
        | Some g => Some g
        | None => group2_dollar r
        end
      else group2_dollar r
  end.

(** The colon and the two asterisks, then the rest of the pattern. *)
Definition colon_tail (r : str) : option str :=
  if Py.startswith r (lit ":**")
  then spaces_group2_dollar (Py.slice_from 3 r)
  else None.

(** Group 1 once it holds the characters [g1] (at least one), followed by
    the rest of the pattern on [r]. *)
Fixpoint group1_lazy (g1 r : str) : option (str * str) :=
  match colon_tail r with
  | Some g2 => Some (g1, g2)
  | None =>
      match r with
      | [] => None
      | c :: t => if dot c then group1_lazy (g1 ++ [c]) t else None
      end
  end.

(** [SUMMARY_ROW_RE.match(s)]: [None], or the groups 1 and 2. *)
Definition rmatch (s : str) : option (str * str) :=
  match s with
  | a :: b :: c :: t =>
      if (a =? chr "*")%N && (b =? chr "*")%N && dot c
      then group1_lazy [c] t
      else None
  | _ => None
  end.

End SummaryRowRe.

(** ** split_table_row *)

Record split_state : Type := SplitState {
  cells : list str;
  cell_chars : str;
  escape : bool;
  started : bool
}.

Definition split_init : split_state :=
  {| cells := []; cell_chars := []; escape := false; started := false |}.

(** One iteration of the loop over the characters of the line. *)
Definition split_step (st : split_state) (ch : char) : split_state :=
  if negb (started st) then
    if (ch =? chr "|")%N
    then {| cells := cells st; cell_chars := cell_chars st;
            escape := escape st; started := true |}
    else st
  else if (ch =? chr "|")%N && negb (escape st) then
    {| cells := cells st ++ [Py.strip (cell_chars st)]; cell_chars := [];
       escape := escape st; started := started st |}
  else if (ch =? chr "\")%N && negb (escape st) then
    {| cells := cells st; cell_chars := cell_chars st ++ [ch];
       escape := true; started := started st |}
  else
    {| cells := cells st; cell_chars := cell_chars st ++ [ch];
       escape := false; started := started st |}.

(** The code after the loop. *)
Definition split_finish (st : split_state) : list str :=
  if Py.truthy (cell_chars st)
  then cells st ++ [Py.strip (cell_chars st)]
  else cells st.

Definition split_table_row (line : str) : list str :=
  split_finish (fold_left split_step (Py.rstrip_chars [NL] line) split_init).

(** ** is_summary_table *)

Fixpoint is_summary_table (table_lines : list str) : bool :=
  match table_lines with
  | [] => false
  | line :: rest =>
      if negb (Py.truthy (Py.strip line)) then is_summary_table rest
      else if negb (Py.contains line (lit "**")) then is_summary_table rest
      else
        match split_table_row line with
        | [] => is_summary_table rest
        | first :: _ =>
            match SummaryRowRe.rmatch first with
            | Some _ => true
            | None => is_summary_table rest
            end
        end
  end.

(** ** format_summary_table *)

Definition HEADER_ROW : str := lit "| Field | Details |".
Definition SEPARATOR_ROW : str := lit "| --- | --- |".

(** [set(stripped.replace('-', '')) <= {'|'}]. *)
Definition is_separator_line (stripped : str) : bool :=
  forallb (fun c => (c =? chr "|")%N) (Py.replace (lit "-") [] stripped).

(** One iteration of [for extra in cells[1:]]. *)
Definition add_extra (details extra : str) : str :=
  if Py.truthy extra then
    if Py.truthy details
    then details ++ lit " " ++ Py.strip extra
    else Py.strip extra
  else details.

(** [f'| {label} | {details} |']. *)
Definition data_row (label details : str) : str :=
  lit "| " ++ label ++ lit " | " ++ details ++ lit " |".

(** One iteration of [for line in table_lines]. *)
Definition format_step (formatted : list str) (line : str) : list str :=
  let stripped := Py.strip line in
  if negb (Py.truthy stripped) || is_separator_line stripped then formatted
  else
    match split_table_row line with
    | [] => formatted
    | first :: extras =>
        if negb (Py.truthy first) then formatted
        else
          match SummaryRowRe.rmatch first with
          | None => formatted
          | Some (g1, g2) =>
              let label := Py.strip g1 in
              let details := fold_left add_extra extras (Py.strip g2) in
              formatted ++ [data_row label details]
          end
    end.

Definition format_summary_table (table_lines : list str) : list str :=
  fold_left format_step table_lines [HEADER_ROW; SEPARATOR_ROW].

(** ** rewrite_summary_tables

    The scan position [i] over [lines] is carried as the suffix [lines[i:]]. *)

Definition is_table_line (line : str) : bool := Py.startswith line (lit "|").

(** The inner [while]: [lines[i:j]] and [lines[j:]]. *)
Fixpoint take_table (lines : list str) : list str * list str :=
  match lines with
  | [] => ([], [])
  | l :: t =>
      if is_table_line l
      then let (block, rest) := take_table t in (l :: block, rest)
      else ([], lines)
  end.

Definition rewrite_block (table_block : list str) : list str :=
  if is_summary_table table_block
  then format_summary_table table_block
  else table_block.

Fixpoint rewrite_loop (fuel : nat) (lines result : list str) : list str :=
  match fuel with
  | O => result
  | S fuel' =>
      match lines with
      | [] => result
      | line :: tl =>
          if is_table_line line then
            let (table_block, rest) := take_table lines in
            rewrite_loop fuel' rest (result ++ rewrite_block table_block)
          else rewrite_loop fuel' tl (result ++ [line])
      end
  end.

Definition rewrite_summary_tables (lines : list str) : list str :=
  rewrite_loop (List.length lines) lines [].

(** ** collapse_blank_lines *)

Definition collapse_step (st : list str * nat) (line : str) : list str * nat :=
  let (compressed, blank_streak) := st in
  if Py.truthy (Py.strip line) then (compressed ++ [Py.rstrip line], 0)
  else
    let blank_streak := S blank_streak in
    if blank_streak <=? 2
    then (compressed ++ [[]], blank_streak)
    else (compressed, blank_streak).

Definition collapse_blank_lines (lines : list str) : list str :=
  fst (fold_left collapse_step lines ([], 0)).

(** ** convert_indented_code_blocks

    The scan position is carried as the lines before it, latest first
    ([before], so that its head is [lines[i - 1]] and it is empty iff
    [i = 0]), and the lines from it on ([rest]). *)

Definition INDENT : str := lit "    ".
Definition FENCE : str := lit "```".

Definition is_indented (line : str) : bool := Py.startswith line INDENT.

(** [i > 0 and lines[i - 1].strip() != '']. *)
Definition after_text (before : list str) : bool :=
  match before with
  | [] => false
  | prev :: _ => Py.truthy (Py.strip prev)
  end.

(** The inner [while j < len(lines)]. *)
Fixpoint collect_block (before rest block : list str) (saw_blank : bool)
  : list str * bool * list str * list str :=
  match rest with
  | [] => (block, saw_blank, before, rest)
  | current :: tl =>
      if is_indented current then
        collect_block (current :: before) tl
                      (block ++ [Py.slice_from 4 current]) saw_blank
      else if Py.isempty current then
        collect_block (current :: before) tl (block ++ [[]]) true
      else (block, saw_blank, before, rest)
  end.

(** The two [while block and ...: block.pop(...)] loops. *)
Definition trim_blank (block : list str) : list str :=
  Py.drop_while (@Py.isempty char)
    (Py.drop_while_end (@Py.isempty char) block).

(** [for part in block: ...]. *)
Definition reindent (part : str) : str :=
  if Py.isempty part then [] else INDENT ++ part.

(** What is appended to [result] once a block is collected.  The fencing
    branch trims [block] in place, so the re-emission after it sees the
    trimmed list. *)
Definition emit_block (block : list str) (saw_blank : bool) : list str :=
  if Py.truthy block && saw_blank then
    let block := trim_blank block in
    if Py.truthy block then [FENCE] ++ block ++ [FENCE]
    else map reindent block
  else map reindent block.

Fixpoint indent_loop (fuel : nat) (before rest result : list str) : list str :=
  match fuel with
  | O => result
  | S fuel' =>
      match rest with
      | [] => result
      | line :: tl =>
          if is_indented line then
            if after_text before
            then indent_loop fuel' (line :: before) tl (result ++ [line])
            else
              let '(block, saw_blank, before', rest') :=
                collect_block before rest [] false in
              indent_loop fuel' before' rest'
                          (result ++ emit_block block saw_blank)
          else indent_loop fuel' (line :: before) tl (result ++ [line])
      end
  end.

(** The main loop from a scan position, with the fuel that suffices. *)
Definition indent_scan (before rest result : list str) : list str :=
  indent_loop (List.length rest) before rest result.

Definition convert_indented_code_blocks (lines : list str) : list str :=
  indent_scan [] lines [].

(** ** convert_file: the assembly of the text that is written *)

Definition normalize_entities (md_content : str) : str :=
  Py.replace (lit "\]") (lit "&#93;")
    (Py.replace (lit "\[") (lit "&#91;")
      (Py.replace (lit "\>") (lit "&gt;")
        (Py.replace (lit "\<") (lit "&lt;") md_content))).

Definition assemble (lines : list str) : str :=
  let md_content := Py.strip (Py.join [NL] (map Py.rstrip lines)) in
  let md_content := Py.replace [NBSP] (lit " ") md_content in
  let md_content := normalize_entities md_content in
  if Py.truthy md_content then md_content ++ [NL] else md_content.

(** The text [convert_file] writes for the lines Pandoc printed. *)
Definition convert_lines (lines : list str) : str :=
  assemble
    (collapse_blank_lines
       (convert_indented_code_blocks (rewrite_summary_tables lines))).

(** ** Definitions the statements are written with *)

(** [s.endswith('\n')]. *)
Fixpoint ends_with_nl (s : str) : bool :=
  match s with
  | [] => false
  | c :: t =>
      match t with
      | [] => (c =? NL)%N
      | _ :: _ => ends_with_nl t
      end
  end.

(** *** Rows *)

(** The state of [split_table_row]'s loop right after the leading marker. *)
Definition split_started : split_state :=
  {| cells := []; cell_chars := []; escape := false; started := true |}.

(** The cells of the text that follows the leading marker. *)
Definition cells_of_body (body : str) : list str :=
  split_finish (fold_left split_step body split_started).

(** The text after the first marker character, escaped or not. *)
Fixpoint after_first_marker (s : str) : str :=
  match s with
  | [] => []
  | c :: t => if (c =? chr "|")%N then t else after_first_marker t
  end.

(** The text after the first marker character that no backslash escapes:
    the escape flag is followed from the start of the row. *)
Fixpoint after_unescaped_marker (escaped : bool) (s : str) : str :=
  match s with
  | [] => []
  | c :: t =>
      if (c =? chr "|")%N && negb escaped then t
      else if (c =? chr "\")%N && negb escaped
      then after_unescaped_marker true t
      else after_unescaped_marker false t
  end.

(** *** Summary rows, as the specification words them *)

(** A qualifying row: not blank, not a pure separator, and a first cell
    that matches the summary-row pattern with a non-empty label. *)
Definition qualifying (line : str) : bool :=
  Py.truthy (Py.strip line)
  && negb (is_separator_line (Py.strip line))
  && match split_table_row line with
     | [] => false
     | first :: _ =>
         match SummaryRowRe.rmatch first with
         | Some (g1, _) => Py.truthy g1
         | None => false
         end
     end.

(** The details: the trimmed trailing text of the first cell, if any, then
    the trimmed text of every later non-empty cell, separated by spaces. *)
Definition details_of (trailing : str) (extras : list str) : str :=
  Py.join (lit " ")
    ((if Py.truthy (Py.strip trailing) then [Py.strip trailing] else [])
     ++ map Py.strip (filter (@Py.truthy char) extras)).

(** The row emitted for a qualifying row. *)
Definition row_of (line : str) : str :=
  match split_table_row line with
  | [] => []
  | first :: extras =>
      match SummaryRowRe.rmatch first with
      | Some (g1, g2) => data_row (Py.strip g1) (details_of g2 extras)
      | None => []
      end
  end.

(** The same notions written out from the specification alone, with the
    text of every row spelled out. *)

(** A pure-separator line: hyphens apart, it holds marker characters
    only. *)
Definition pure_separator (stripped : str) : bool :=
  forallb (fun c => (c =? chr "|")%N || (c =? chr "-")%N) stripped.

(** A qualifying row: not blank, not a pure separator, and a first cell
    that matches the summary-row pattern with a non-empty label. *)
Definition is_qualifying_row (line : str) : bool :=
  negb (Py.isempty (Py.strip line))
  && negb (pure_separator (Py.strip line))
  && match split_table_row line with
     | [] => false
     | first :: _ =>
         match SummaryRowRe.rmatch first with
         | Some (label, _) => negb (Py.isempty label)
         | None => false
         end
     end.

(** The row written for a qualifying row: a marker and a space, the
    trimmed label, a space, a marker and a space, the details, a space and
    a marker. *)
Definition canonical_row (line : str) : str :=
  match split_table_row line with
  | [] => []
  | first :: extras =>
      match SummaryRowRe.rmatch first with
      | Some (label, trailing) =>
          lit "| " ++ Py.strip label ++ lit " | "
          ++ details_of trailing extras ++ lit " |"
      | None => []
      end
  end.

Definition canonical_table (table_lines : list str) : list str :=
  [lit "| Field | Details |"; lit "| --- | --- |"]
  ++ map canonical_row (filter is_qualifying_row table_lines).

(** *** Documents cut into plain lines and table runs *)

Inductive segment : Type :=
| Plain (line : str)
| Table (block : list str).

Definition segment_lines (s : segment) : list str :=
  match s with
  | Plain l => [l]
  | Table b => b
  end.

(** A plain line does not start with the marker; a table run is not empty
    and all its lines do. *)
Definition segment_ok (s : segment) : bool :=
  match s with
  | Plain l => negb (is_table_line l)
  | Table b => Py.truthy b && forallb is_table_line b
  end.

(** Table runs are maximal: no two of them are adjacent. *)
Fixpoint runs_maximal (segs : list segment) : bool :=
  match segs with
  | [] => true
  | s :: t =>
      match s, t with
      | Table _, Table _ :: _ => false
      | _, _ => runs_maximal t
      end
  end.

Definition segmentation (segs : list segment) : bool :=
  forallb segment_ok segs && runs_maximal segs.

(** What the rewriter is said to leave in place of a segment. *)
Definition segment_image (s : segment) : list str :=
  match s with
  | Plain l => [l]
  | Table b => if is_summary_table b then format_summary_table b else b
  end.

(** The segments of a document, read from the left. *)
Fixpoint segments (lines : list str) : list segment :=
  match lines with
  | [] => []
  | l :: t =>
      if is_table_line l then
        match segments t with
        | Table b :: segs => Table (l :: b) :: segs
        | segs => Table [l] :: segs
        end
      else Plain l :: segments t
  end.

(** *** Documents cut into non-blank lines and runs of blank lines *)

Definition is_blank (line : str) : bool := Py.isempty (Py.strip line).

Inductive piece : Type :=
| Text (line : str)
| Blanks (run : list str).

Definition piece_lines (p : piece) : list str :=
  match p with
  | Text l => [l]
  | Blanks r => r
  end.

Definition piece_ok (p : piece) : bool :=
  match p with
  | Text l => negb (is_blank l)
  | Blanks r => Py.truthy r && forallb is_blank r
  end.

Fixpoint blanks_maximal (ps : list piece) : bool :=
  match ps with
  | [] => true
  | p :: t =>
      match p, t with
      | Blanks _, Blanks _ :: _ => false
      | _, _ => blanks_maximal t
      end
  end.

Definition pieces_ok (ps : list piece) : bool :=
  forallb piece_ok ps && blanks_maximal ps.

(** A non-blank line loses its trailing whitespace; of a run of blank lines
    at most two are kept, each as an empty line. *)
Definition piece_image (p : piece) : list str :=
  match p with
  | Text l => [Py.rstrip l]
  | Blanks r => repeat [] (Nat.min 2 (List.length r))
  end.

(** The pieces of a document, read from the left. *)
Fixpoint pieces (lines : list str) : list piece :=
  match lines with
  | [] => []
  | l :: t =>
      if is_blank l then
        match pieces t with
        | Blanks r :: ps => Blanks (l :: r) :: ps
        | ps => Blanks [l] :: ps
        end
      else Text l :: pieces t
  end.

(** *** Indented blocks *)

(** A line the inner loop of [convert_indented_code_blocks] collects. *)
Definition block_line (line : str) : bool :=
  is_indented line || Py.isempty line.

(** The collected run ends at the end of the document or at a line that is
    neither indented nor empty. *)
Definition stops_block (post : list str) : bool :=
  match post with
  | [] => true
  | l :: _ => negb (block_line l)
  end.

(** An indented line with nothing after its four spaces. *)
Definition bare (line : str) : bool := Py.isempty (Py.slice_from 4 line).

(** *** Auxiliary notions *)

(** No element satisfying [p] at the head of [s]. *)
Definition head_kept (A : Type) (p : A -> bool) (s : list A) : bool :=
  match s with
  | [] => true
  | c :: _ => negb (p c)
  end.

(** A cell is a trimmed text. *)
Definition trimmed (c : str) : Prop := Py.strip c = c.

(** The lines after a table run: none, or a first line without the marker. *)
Definition starts_plain (post : list str) : bool :=
  match post with
  | [] => true
  | l :: _ => negb (is_table_line l)
  end.

(** The collapser's output for [lines] when [blank_streak] is [k] on entry. *)
Definition collapse_from (k : nat) (lines : list str) : list str :=
  fst (fold_left collapse_step lines ([], k)).

(** The lines after a run of blank lines: none, or a first non-blank one. *)
Definition starts_text (post : list str) : bool :=
  match post with
  | [] => true
  | l :: _ => negb (is_blank l)
  end.

(** The streak on entry matters only to a run of blank lines. *)
Definition streak_fits (k : nat) (ps : list piece) : bool :=
  match ps with
  | Blanks _ :: _ => k =? 0
  | _ => true
  end.

(** *** Notions for the further properties *)

(** The text holds no marker character. *)
Definition marker_free (s : str) : bool :=
  negb (existsb (N.eqb (chr "|")) s).

(** The text is a contiguous piece of [line]. *)
Definition piece_of (line cell : str) : Prop :=
  exists a b, line = a ++ cell ++ b.

(** No character [a] directly followed by [b]. *)
Fixpoint pair_free (a b : char) (s : str) : bool :=
  match s with
  | [] => true
  | c :: t =>
      match t with
      | [] => true
      | d :: _ => negb ((c =? a)%N && (d =? b)%N) && pair_free a b t
      end
  end.

(** The number of empty lines at the head of a document. *)
Fixpoint leading_empty (lines : list str) : nat :=
  match lines with
  | [] => 0
  | l :: t => if Py.isempty l then S (leading_empty t) else 0
  end.

(** Nowhere in the document do three empty lines follow one another. *)
Fixpoint no_three_empty (lines : list str) : bool :=
  match lines with
  | [] => true
  | _ :: t => (leading_empty lines <=? 2) && no_three_empty t
  end.

(** No indented line of the document opens a block: each one comes right
    after a line with text.  [after_blank] tells whether the line before
    the document is blank or missing. *)
Fixpoint opens_no_block (after_blank : bool) (lines : list str) : bool :=
  match lines with
  | [] => true
  | l :: t =>
      negb (is_indented l && after_blank) && opens_no_block (is_blank l) t
  end.

Definition is_plain_line (line : str) : bool := negb (is_table_line line).

Definition has_text (line : str) : bool := negb (is_blank line).

(** The rest of a match after the colon and the asterisks: a run of
    whitespace, the text of group 2 without any newline, and then the end
    of the string or one last newline. *)
Definition match_rest (r g2 : str) : Prop :=
  exists ws tail,
    r = ws ++ g2 ++ tail
    /\ forallb Py.isspace ws = true
    /\ forallb SummaryRowRe.dot g2 = true
    /\ SummaryRowRe.at_dollar tail = true.

(** [s.split(sep)] for a separator of one character: the pieces of [s]
    between the separators, at least one piece. *)
Fixpoint split_on (sep : char) (s : str) : list str :=
  match s with
  | [] => [[]]
  | c :: t =>
      if (c =? sep)%N then [] :: split_on sep t
      else
        match split_on sep t with
        | [] => [[c]]
        | h :: r => (c :: h) :: r
        end
  end.

(** The pieces with [cc] put in front of the first. *)
Definition prepend (cc : str) (segs : list str) : list str :=
  match segs with
  | [] => [cc]
  | h :: r => (cc ++ h) :: r
  end.

(** The cells of pieces: every piece but the last, trimmed, and the last
    one too unless it is empty. *)
Definition cells_of_pieces (segs : list str) : list str :=
  map Py.strip (removelast segs)
  ++ (if Py.truthy (last segs []) then [Py.strip (last segs [])] else []).

(** * Properties *)

(** ** Facts on the string operations *)

Section DropWhile.

Variable A : Type.
Variable p : A -> bool.

Lemma drop_while_head : forall s, head_kept p (Py.drop_while p s) = true.
Proof.
  induction s as [|c t IH]; simpl; auto.
  destruct (p c) eqn:E; auto. simpl. now rewrite E.
Qed.

Lemma drop_while_fixed : forall s,
  head_kept p s = true -> Py.drop_while p s = s.
Proof.
  intros [|c t]; simpl; auto.
  destruct (p c); simpl; congruence.
Qed.

Lemma drop_while_suffix : forall s,
  exists pre, s = pre ++ Py.drop_while p s /\ forallb p pre = true.
Proof.
  induction s as [|c t [pre [IH1 IH2]]]; simpl.
  - now exists [].
  - destruct (p c) eqn:E.
    + exists (c :: pre). simpl. rewrite E, IH2. split; auto.
      f_equal. exact IH1.
    + now exists [].
Qed.

Lemma drop_while_all : forall s,
  forallb p s = true -> Py.drop_while p s = [].
Proof.
  induction s as [|c t IH]; simpl; auto.
  destruct (p c); simpl; auto. discriminate.
Qed.

Lemma drop_while_app_stop : forall pre s,
  forallb p pre = true -> Py.drop_while p (pre ++ s) = Py.drop_while p s.
Proof.
  induction pre as [|c t IH]; simpl; auto.
  intros s H. apply andb_true_iff in H as [H1 H2]. rewrite H1. auto.
Qed.

Lemma In_drop_while : forall c s,
  In c s -> p c = false -> In c (Py.drop_while p s).
Proof.
  intros c s. induction s as [|d t IH]; simpl; auto.
  intros [->|H] Hc.
  - rewrite Hc. now left.
  - destruct (p d); auto. now right.
Qed.

Lemma In_drop_while_end : forall c s,
  In c s -> p c = false -> In c (Py.drop_while_end p s).
Proof.
  intros c s H Hc. unfold Py.drop_while_end.
  apply in_rev. rewrite rev_involutive.
  apply In_drop_while; auto. now apply in_rev in H.
Qed.

(** The last element kept by [drop_while] is the last element. *)
Lemma head_kept_rev_drop_while : forall s,
  head_kept p (rev s) = true -> head_kept p (rev (Py.drop_while p s)) = true.
Proof.
  intros s H. destruct (drop_while_suffix s) as [pre [E _]].
  destruct (rev (Py.drop_while p s)) as [|c r] eqn:R; auto.
  rewrite E, rev_app_distr, R in H. exact H.
Qed.

Lemma drop_while_end_fixed : forall s,
  head_kept p (rev s) = true -> Py.drop_while_end p s = s.
Proof.
  intros s H. unfold Py.drop_while_end.
  rewrite drop_while_fixed by exact H. apply rev_involutive.
Qed.

Lemma drop_while_end_last : forall s,
  head_kept p (rev (Py.drop_while_end p s)) = true.
Proof.
  intros s. unfold Py.drop_while_end. rewrite rev_involutive.
  apply drop_while_head.
Qed.

Lemma drop_while_end_idem : forall s,
  Py.drop_while_end p (Py.drop_while_end p s) = Py.drop_while_end p s.
Proof.
  intros s. apply drop_while_end_fixed, drop_while_end_last.
Qed.

Lemma drop_while_end_snoc_keep : forall s c,
  p c = false -> Py.drop_while_end p (s ++ [c]) = s ++ [c].
Proof.
  intros s c H. apply drop_while_end_fixed.
  rewrite rev_app_distr. simpl. now rewrite H.
Qed.

End DropWhile.

Lemma strip_last : forall s,
  head_kept Py.isspace (rev (Py.strip s)) = true.
Proof.
  intros s. unfold Py.strip, Py.lstrip, Py.rstrip.
  apply head_kept_rev_drop_while, drop_while_end_last.
Qed.

Lemma strip_head : forall s, head_kept Py.isspace (Py.strip s) = true.
Proof. intros s. apply drop_while_head. Qed.

Lemma strip_fixed : forall s,
  head_kept Py.isspace s = true ->
  head_kept Py.isspace (rev s) = true ->
  Py.strip s = s.
Proof.
  intros s H1 H2. unfold Py.strip, Py.lstrip, Py.rstrip.
  rewrite drop_while_end_fixed by exact H2.
  now apply drop_while_fixed.
Qed.

Lemma strip_idem : forall s, Py.strip (Py.strip s) = Py.strip s.
Proof. intros s. apply strip_fixed; [apply strip_head | apply strip_last]. Qed.

Lemma rstrip_idem : forall s, Py.rstrip (Py.rstrip s) = Py.rstrip s.
Proof. intros s. apply drop_while_end_idem. Qed.

Lemma In_strip : forall c s,
  In c s -> Py.isspace c = false -> In c (Py.strip s).
Proof.
  intros c s H Hc. unfold Py.strip, Py.lstrip, Py.rstrip.
  apply In_drop_while; auto. apply In_drop_while_end; auto.
Qed.

Lemma ends_with_nl_snoc : forall s c,
  ends_with_nl (s ++ [c]) = (c =? NL)%N.
Proof.
  induction s as [|d t IH]; intros c; simpl; auto.
  destruct (t ++ [c]) eqn:E.
  - destruct t; discriminate.
  - rewrite <- E. apply IH.
Qed.

Lemma ends_with_nl_rev : forall s,
  ends_with_nl s = match rev s with [] => false | c :: _ => (c =? NL)%N end.
Proof.
  intros s. destruct s as [|c t] using rev_ind; auto.
  rewrite ends_with_nl_snoc, rev_app_distr. reflexivity.
Qed.

Lemma ends_with_nl_app : forall x y,
  ends_with_nl x = false -> ends_with_nl y = false ->
  ends_with_nl (x ++ y) = false.
Proof.
  intros x y Hx Hy. rewrite ends_with_nl_rev in *.
  rewrite rev_app_distr. destruct (rev y); simpl; auto.
Qed.

Lemma ends_with_nl_tail : forall c t,
  ends_with_nl (c :: t) = false -> ends_with_nl t = false.
Proof. intros c [|d t]; simpl; auto. Qed.

Lemma ends_with_nl_strip : forall s, ends_with_nl (Py.strip s) = false.
Proof.
  intros s. rewrite ends_with_nl_rev. pose proof (strip_last s) as H.
  destruct (rev (Py.strip s)) as [|c r]; auto. simpl in H.
  destruct (N.eqb_spec c NL) as [->|]; auto.
Qed.

Lemma startswith_head : forall s a p,
  Py.startswith s (a :: p) = true -> exists t, s = a :: t.
Proof.
  intros [|c t] a p; simpl; [discriminate|].
  intros H. apply andb_true_iff in H as [H _].
  apply N.eqb_eq in H. subst. now exists t.
Qed.

Lemma contains_In : forall s a p, Py.contains s (a :: p) = true -> In a s.
Proof.
  induction s as [|c t IH]; intros a p H.
  - discriminate.
  - cbn [Py.contains] in H. apply orb_true_iff in H as [H|H].
    + apply startswith_head in H as [t' E]. injection E as -> _. now left.
    + right. eapply IH, H.
Qed.

(** Deleting one character keeps every other one. *)
Lemma In_replace_delete : forall a c s,
  In c s -> c <> a -> In c (Py.replace [a] [] s).
Proof.
  intros a c s. unfold Py.replace.
  induction s as [|d t IH]; simpl; auto.
  intros H Hc. rewrite andb_true_r.
  destruct (N.eqb_spec d a) as [->|Hd]; simpl.
  - destruct H as [->|H]; [contradiction|auto].
  - destruct H as [->|H]; auto.
Qed.

(** ** split_table_row *)

Lemma split_step_trimmed : forall st ch,
  Forall trimmed (cells st) -> Forall trimmed (cells (split_step st ch)).
Proof.
  intros st ch H. unfold split_step.
  destruct (started st), (ch =? chr "|")%N, (escape st), (ch =? chr "\")%N;
    simpl; auto; apply Forall_app; split; auto;
    constructor; auto; apply strip_idem.
Qed.

Lemma split_fold_trimmed : forall s st,
  Forall trimmed (cells st) ->
  Forall trimmed (cells (fold_left split_step s st)).
Proof.
  induction s as [|c t IH]; simpl; auto.
  intros st H. apply IH, split_step_trimmed, H.
Qed.

Lemma split_table_row_trimmed : forall line,
  Forall trimmed (split_table_row line).
Proof.
  intros line. unfold split_table_row, split_finish.
  pose proof (split_fold_trimmed (Py.rstrip_chars [NL] line) split_init
                (Forall_nil _)) as H.
  destruct (Py.truthy _); auto.
  apply Forall_app; split; auto. constructor; auto. apply strip_idem.
Qed.

(** The loop skips everything up to the first marker and then runs from
    the state [split_started]. *)
Lemma split_skips_to_marker : forall s,
  split_finish (fold_left split_step s split_init) =
  cells_of_body (after_first_marker s).
Proof.
  induction s as [|c t IH]; simpl; auto.
  unfold split_step at 2. simpl.
  destruct (c =? _)%N; auto.
Qed.

(** C4 (as the code has it): the row is read from the first marker
    character on, whether or not a backslash stands before that marker; the
    cells are those of the text that follows it.  So the row whose first
    marker is escaped still has the cell [a]. *)
Theorem split_table_row_leading_marker :
  (forall line,
     split_table_row line =
     cells_of_body (after_first_marker (Py.rstrip_chars [NL] line)))
  /\ split_table_row (lit "\| a |") = [lit "a"].
Proof.
  split.
  - intros line. apply split_skips_to_marker.
  - vm_compute. reflexivity.
Qed.

(** C4 (as stated) fails: were the leading marker the first marker that no
    backslash escapes, the row with an escaped first marker would have no
    cell at all, while [split_table_row] returns the cell [a]. *)
Lemma split_table_row_escaped_leading_marker :
  split_table_row (lit "\| a |") = [lit "a"]
  /\ cells_of_body
       (after_unescaped_marker false (Py.rstrip_chars [NL] (lit "\| a |")))
     = []
  /\ split_table_row (lit "\| a |") <>
     cells_of_body
       (after_unescaped_marker false (Py.rstrip_chars [NL] (lit "\| a |"))).
Proof.
  repeat split; try (vm_compute; reflexivity).
  vm_compute. discriminate.
Qed.

(** C5: inside a row, a backslash that is not escaped sets the escape flag
    and stays in the cell; the character after it, whatever it is, is
    appended to the cell and clears the flag, so a marker right after that
    character closes the cell again; and the example row splits into the
    two cells with the escaped marker kept inside the first. *)
Theorem split_table_row_escape :
  (forall cs cc,
     split_step {| cells := cs; cell_chars := cc;
                   escape := false; started := true |} (chr "\")
     = {| cells := cs; cell_chars := cc ++ [chr "\"];
          escape := true; started := true |})
  /\ (forall cs cc c,
        fold_left split_step [chr "\"; c]
          {| cells := cs; cell_chars := cc;
             escape := false; started := true |}
        = {| cells := cs; cell_chars := cc ++ [chr "\"; c];
             escape := false; started := true |})
  /\ (forall cs cc c,
        fold_left split_step [chr "\"; c; chr "|"]
          {| cells := cs; cell_chars := cc;
             escape := false; started := true |}
        = {| cells := cs ++ [Py.strip (cc ++ [chr "\"; c])];
             cell_chars := []; escape := false; started := true |})
  /\ split_table_row (lit "| a \| b | c |") = [lit "a \| b"; lit "c"].
Proof.
  assert (E : forall cs cc c,
             fold_left split_step [chr "\"; c]
               {| cells := cs; cell_chars := cc;
                  escape := false; started := true |}
             = {| cells := cs; cell_chars := cc ++ [chr "\"; c];
                  escape := false; started := true |}).
  { intros cs cc c. simpl. unfold split_step. simpl.
    rewrite !andb_false_r, <- app_assoc. reflexivity. }
  split; [|split; [|split]].
  - intros cs cc. reflexivity.
  - exact E.
  - intros cs cc c.
    change [chr "\"; c; chr "|"] with ([chr "\"; c] ++ [chr "|"]).
    rewrite fold_left_app, E. reflexivity.
  - vm_compute. reflexivity.
Qed.

(** ** SUMMARY_ROW_RE *)

Lemma group1_lazy_extends : forall r g1 g1' g2,
  SummaryRowRe.group1_lazy g1 r = Some (g1', g2) -> exists x, g1' = g1 ++ x.
Proof.
  induction r as [|c t IH]; intros g1 g1' g2;
    cbn [SummaryRowRe.group1_lazy]; destruct (SummaryRowRe.colon_tail _).
  - intros H. injection H as <- _. exists []. now rewrite app_nil_r.
  - discriminate.
  - intros H. injection H as <- _. exists []. now rewrite app_nil_r.
  - destruct (SummaryRowRe.dot c); [|discriminate].
    intros H. apply IH in H as [x ->]. exists (c :: x).
    now rewrite <- app_assoc.
Qed.

(** Group 1 of a match holds at least one character. *)
Lemma rmatch_label_nonempty : forall s g1 g2,
  SummaryRowRe.rmatch s = Some (g1, g2) -> Py.truthy g1 = true.
Proof.
  intros [|a [|b [|c t]]] g1 g2; simpl; try discriminate.
  destruct (_ && _); [|discriminate].
  intros H. apply group1_lazy_extends in H as [x ->]. reflexivity.
Qed.

(** ** format_summary_table *)

Lemma join_cons2 : forall sep x y t,
  Py.join sep (x :: y :: t) = x ++ sep ++ Py.join sep (y :: t).
Proof. reflexivity. Qed.

Lemma join_prepend : forall sep d x t,
  Py.join sep ((d ++ sep ++ x) :: t) = d ++ sep ++ Py.join sep (x :: t).
Proof.
  intros sep d x [|y t].
  - reflexivity.
  - rewrite (join_cons2 sep (d ++ sep ++ x)), (join_cons2 sep x).
    now rewrite <- !app_assoc.
Qed.

(** The loop over the later cells joins the non-empty ones with spaces. *)
Lemma fold_add_extra : forall extras d,
  Forall trimmed extras ->
  fold_left add_extra extras d =
  Py.join (lit " ")
    ((if Py.truthy d then [d] else [])
     ++ map Py.strip (filter (@Py.truthy char) extras)).
Proof.
  induction extras as [|e es IH]; intros d H.
  - simpl. destruct d; reflexivity.
  - inversion H as [|? ? He Hes]; subst. cbn [fold_left filter].
    unfold add_extra at 2. destruct (Py.truthy e) eqn:Ee.
    + rewrite He. cbn [map]. rewrite He.
      destruct (Py.truthy d) eqn:Ed.
      * rewrite IH by assumption.
        replace (Py.truthy (d ++ lit " " ++ e)) with true
          by (destruct d; [discriminate|reflexivity]).
        cbn [app]. rewrite join_prepend. reflexivity.
      * rewrite IH by assumption. rewrite Ee. reflexivity.
    + apply IH. assumption.
Qed.

Lemma separator_line_has_no_star : forall s,
  In (chr "*") s -> is_separator_line s = false.
Proof.
  intros s H. unfold is_separator_line.
  apply (In_replace_delete (a := chr "-")) in H; [|discriminate].
  change (Py.replace (lit "-") [] s) with (Py.replace [chr "-"] [] s).
  induction (Py.replace [chr "-"] [] s) as [|c t IH]; [contradiction|].
  cbn [forallb]. destruct H as [->|H]; [reflexivity|].
  rewrite IH by assumption. apply andb_false_r.
Qed.

(** One iteration of the formatter's loop appends the row of a qualifying
    line and nothing for any other line. *)
Lemma format_step_qualifying : forall formatted line,
  format_step formatted line =
  if qualifying line then formatted ++ [row_of line] else formatted.
Proof.
  intros formatted line. unfold format_step, qualifying, row_of.
  pose proof (split_table_row_trimmed line) as T.
  destruct (Py.truthy (Py.strip line)); simpl; auto.
  destruct (is_separator_line (Py.strip line)); simpl; auto.
  destruct (split_table_row line) as [|first extras]; auto.
  inversion T as [|? ? _ Te]; subst.
  destruct first as [|a first]; [reflexivity|]. cbn [Py.truthy Py.isempty negb].
  destruct (SummaryRowRe.rmatch (a :: first)) as [[g1 g2]|] eqn:M; auto.
  rewrite (rmatch_label_nonempty _ M).
  unfold details_of. rewrite fold_add_extra by assumption. reflexivity.
Qed.

Lemma format_fold : forall table_lines formatted,
  fold_left format_step table_lines formatted =
  formatted ++ map row_of (filter qualifying table_lines).
Proof.
  induction table_lines as [|l t IH]; intros formatted; simpl.
  - now rewrite app_nil_r.
  - rewrite IH, format_step_qualifying.
    destruct (qualifying l); simpl; auto.
    now rewrite <- app_assoc.
Qed.

(** C1 (as the code has it): the separator row is skipped, and the second
    cell of the data row is appended to the details after a space. *)
Theorem format_summary_table_name_age :
  format_summary_table
    [lit "| **Name:** John | **Age:** 30 |"; lit "| --- | --- |"]
  = [lit "| Field | Details |"; lit "| --- | --- |";
     lit "| Name | John **Age:** 30 |"].
Proof. vm_compute. reflexivity. Qed.

(** C1 (as stated) fails: the result is not the table whose data row has
    the details [John] alone. *)
Lemma format_summary_table_name_age_not_john :
  format_summary_table
    [lit "| **Name:** John | **Age:** 30 |"; lit "| --- | --- |"]
  <> [lit "| Field | Details |"; lit "| --- | --- |"; lit "| Name | John |"].
Proof. vm_compute. discriminate. Qed.

(** The formatter's separator test says what a pure separator is. *)
Lemma is_separator_line_pure : forall s,
  is_separator_line s = pure_separator s.
Proof.
  intros s. unfold is_separator_line, pure_separator, Py.replace.
  change (lit "-") with [chr "-"].
  induction s as [|c t IH]; [reflexivity|].
  cbn [Py.replace_from Py.startswith List.length Nat.sub forallb].
  rewrite andb_true_r. destruct (c =? chr "-")%N.
  - cbn [app]. rewrite IH, orb_true_r. reflexivity.
  - cbn [forallb]. rewrite IH, orb_false_r. reflexivity.
Qed.

Lemma is_qualifying_row_filter : forall line,
  is_qualifying_row line = qualifying line.
Proof.
  intros line. unfold is_qualifying_row, qualifying.
  now rewrite is_separator_line_pure.
Qed.

Lemma canonical_row_of : forall line, canonical_row line = row_of line.
Proof. reflexivity. Qed.

Lemma canonical_rows : forall table_lines,
  map canonical_row (filter is_qualifying_row table_lines) =
  map row_of (filter qualifying table_lines).
Proof.
  induction table_lines as [|l t IH]; [reflexivity|].
  cbn [filter]. rewrite is_qualifying_row_filter.
  destruct (qualifying l); [|exact IH].
  cbn [map]. now rewrite IH, canonical_row_of.
Qed.

(** C2: the formatter returns the two fixed rows [| Field | Details |] and
    [| --- | --- |], then one row per qualifying input row, in order (a row
    that is not blank, not a pure separator, and whose first cell matches
    the pattern with a non-empty label): a marker, the trimmed label, a
    marker, the details and a marker, spaced as in the fixed rows, the
    details being the trimmed trailing text of the first cell followed by
    the trimmed text of every later non-empty cell, separated by spaces.  A
    row that does not qualify leaves nothing, as in the block below with a
    separator row, a blank row, a row without a label and a row with an
    empty cell. *)
Theorem format_summary_table_rows : forall table_lines,
  format_summary_table table_lines =
    [lit "| Field | Details |"; lit "| --- | --- |"]
    ++ map canonical_row (filter is_qualifying_row table_lines)
  /\ format_summary_table table_lines = canonical_table table_lines
  /\ List.length (format_summary_table table_lines) =
     2 + List.length (filter is_qualifying_row table_lines)
  /\ format_summary_table
       [lit "| **Name:** John | Smith |"; lit "| --- | --- |"; lit "  ";
        lit "| plain | row |"; lit "| **Role:** | | admin |"]
     = [lit "| Field | Details |"; lit "| --- | --- |";
        lit "| Name | John Smith |"; lit "| Role | admin |"].
Proof.
  intros table_lines.
  assert (E : format_summary_table table_lines =
              canonical_table table_lines).
  { unfold format_summary_table, canonical_table.
    rewrite format_fold, canonical_rows. reflexivity. }
  split; [exact E|]. split; [exact E|]. split.
  - rewrite E. unfold canonical_table.
    rewrite length_app, length_map. reflexivity.
  - vm_compute. reflexivity.
Qed.

(** ** is_summary_table *)

(** A row on which the classifier answers [True] qualifies for the
    formatter. *)
Lemma is_summary_table_qualifying : forall table_lines,
  is_summary_table table_lines = true ->
  existsb qualifying table_lines = true.
Proof.
  induction table_lines as [|line rest IH]; simpl; [discriminate|].
  intros H. apply orb_true_iff.
  destruct (Py.truthy (Py.strip line)) eqn:Es; simpl in H; auto.
  destruct (Py.contains line (lit "**")) eqn:Ec; simpl in H; auto.
  destruct (split_table_row line) as [|first extras] eqn:Er; auto.
  destruct (SummaryRowRe.rmatch first) as [[g1 g2]|] eqn:M; auto.
  left. unfold qualifying. rewrite Es, Er, M, (rmatch_label_nonempty _ M).
  rewrite separator_line_has_no_star; [reflexivity|].
  apply In_strip; [|reflexivity].
  eapply contains_In. exact Ec.
Qed.




(** ** rewrite_summary_tables *)

Lemma take_table_run : forall block post,
  forallb is_table_line block = true -> starts_plain post = true ->
  take_table (block ++ post) = (block, post).
Proof.
  induction block as [|l b IH]; intros post Hb Hp.
  - destruct post as [|l t]; simpl in *; auto.
    apply negb_true_iff in Hp. now rewrite Hp.
  - simpl in *. apply andb_true_iff in Hb as [Hl Hb].
    rewrite Hl, IH by assumption. reflexivity.
Qed.

Lemma take_table_length : forall lines,
  List.length (snd (take_table lines)) <= List.length lines.
Proof.
  induction lines as [|l t IH]; simpl; auto.
  destruct (is_table_line l); simpl; auto.
  destruct (take_table t). simpl in *. lia.
Qed.

Lemma take_table_progress : forall l t,
  is_table_line l = true ->
  List.length (snd (take_table (l :: t))) <= List.length t.
Proof.
  intros l t H. simpl. rewrite H.
  pose proof (take_table_length t) as L.
  destruct (take_table t). exact L.
Qed.

(** The fuel [rewrite_summary_tables] gives its loop is enough: more of it
    changes nothing. *)
Lemma rewrite_loop_fuel : forall f1 f2 lines result,
  List.length lines <= f1 -> List.length lines <= f2 ->
  rewrite_loop f1 lines result = rewrite_loop f2 lines result.
Proof.
  induction f1 as [|f1 IH]; intros f2 lines result H1 H2.
  - destruct lines; [|simpl in H1; lia]. destruct f2; reflexivity.
  - destruct lines as [|l t]; [destruct f2; reflexivity|].
    destruct f2 as [|f2]; [simpl in H2; lia|].
    simpl in H1, H2. cbn [rewrite_loop].
    destruct (is_table_line l) eqn:El.
    + pose proof (@take_table_progress l t El) as L.
      destruct (take_table (l :: t)) as [b r]. simpl in L.
      apply IH; lia.
    + apply IH; lia.
Qed.

Lemma rewrite_loop_result : forall fuel lines result,
  rewrite_loop fuel lines result = result ++ rewrite_loop fuel lines [].
Proof.
  induction fuel as [|f IH]; intros lines result; simpl.
  - now rewrite app_nil_r.
  - destruct lines as [|l t]; [now rewrite app_nil_r|].
    destruct (is_table_line l).
    + destruct (take_table (l :: t)) as [b r].
      rewrite IH, (IH r (rewrite_block b)). now rewrite app_assoc.
    + rewrite IH, (IH t [l]). now rewrite app_assoc.
Qed.

Lemma rewrite_plain_line : forall l t,
  is_table_line l = false ->
  rewrite_summary_tables (l :: t) = l :: rewrite_summary_tables t.
Proof.
  intros l t H. unfold rewrite_summary_tables. simpl. rewrite H.
  now rewrite rewrite_loop_result.
Qed.

Lemma rewrite_table_run : forall block post,
  Py.truthy block = true -> forallb is_table_line block = true ->
  starts_plain post = true ->
  rewrite_summary_tables (block ++ post) =
  rewrite_block block ++ rewrite_summary_tables post.
Proof.
  intros block post Hn Hb Hp. unfold rewrite_summary_tables.
  destruct block as [|l b]; [discriminate|].
  pose proof (take_table_run (l :: b) post Hb Hp) as T.
  simpl in Hb. apply andb_true_iff in Hb as [Hl Hb].
  change (List.length ((l :: b) ++ post))
    with (S (List.length (b ++ post))).
  cbn [rewrite_loop app]. rewrite Hl.
  change (l :: b ++ post) with ((l :: b) ++ post). rewrite T.
  rewrite rewrite_loop_result. cbn [app]. f_equal.
  apply rewrite_loop_fuel; rewrite ?length_app; lia.
Qed.

Lemma rewrite_segments : forall segs,
  segmentation segs = true ->
  rewrite_summary_tables (flat_map segment_lines segs) =
  flat_map segment_image segs.
Proof.
  unfold segmentation.
  induction segs as [|s segs IH]; intros H; [reflexivity|].
  apply andb_true_iff in H as [Hok Hmax].
  cbn [forallb] in Hok. apply andb_true_iff in Hok as [Hs Hok].
  assert (Hmax' : runs_maximal segs = true).
  { simpl in Hmax. destruct s; auto. destruct segs as [|[] ?]; auto.
    discriminate. }
  cbn [flat_map]. destruct s as [l|b].
  - simpl in Hs. apply negb_true_iff in Hs.
    cbn [segment_lines segment_image app].
    rewrite rewrite_plain_line by assumption.
    rewrite IH; [reflexivity|]. now rewrite Hok, Hmax'.
  - simpl in Hs. apply andb_true_iff in Hs as [Hn Hb].
    cbn [segment_lines segment_image].
    rewrite rewrite_table_run; auto.
    + rewrite IH; [reflexivity|]. now rewrite Hok, Hmax'.
    + destruct segs as [|[l'|b'] segs']; auto.
      * simpl in Hok. apply andb_true_iff in Hok as [Hl' _]. exact Hl'.
      * simpl in Hmax. discriminate.
Qed.

(** Every document is cut in exactly this way by [segments]. *)
Lemma segments_cover : forall lines,
  segmentation (segments lines) = true
  /\ flat_map segment_lines (segments lines) = lines.
Proof.
  unfold segmentation.
  induction lines as [|l t [IH1 IH2]]; [split; reflexivity|].
  apply andb_true_iff in IH1 as [Hok Hmax].
  cbn [segments]. destruct (is_table_line l) eqn:El.
  - destruct (segments t) as [|[l'|b'] segs] eqn:Es.
    + simpl. rewrite El. simpl in IH2. subst. split; reflexivity.
    + split.
      * cbn [forallb segment_ok Py.truthy Py.isempty negb].
        rewrite El. simpl in Hok, Hmax |- *. now rewrite Hok, Hmax.
      * simpl in IH2 |- *. now rewrite IH2.
    + split.
      * simpl in Hok, Hmax |- *. rewrite El.
        apply andb_true_iff in Hok as [Hb Hok].
        apply andb_true_iff in Hb as [_ Hb]. rewrite Hb, Hok.
        destruct segs as [|[] ?]; auto.
      * simpl in IH2 |- *. now rewrite IH2.
  - split.
    + simpl. rewrite El, Hok. simpl. exact Hmax.
    + simpl. now rewrite IH2.
Qed.

(** C6: in a document read as plain lines (not starting with the marker)
    and maximal runs of lines starting with it, the rewriter leaves every
    plain line as it is, replaces a run by the formatter's output when the
    classifier accepts it and leaves it as it is otherwise, all in the
    order of the document. *)
Theorem rewrite_summary_tables_segments : forall segs,
  segmentation segs = true ->
  rewrite_summary_tables (flat_map segment_lines segs) =
  flat_map segment_image segs.
Proof. exact rewrite_segments. Qed.

Lemma rewrite_summary_tables_segments_witness :
  let segs := [Plain (lit "intro");
               Table [lit "| **Name:** Alice | x |"; lit "| --- |"];
               Plain [];
               Table [lit "| Name | Alice |"]] in
  segmentation segs = true
  /\ rewrite_summary_tables (flat_map segment_lines segs) =
     [lit "intro"; lit "| Field | Details |"; lit "| --- | --- |";
      lit "| Name | Alice x |"; []; lit "| Name | Alice |"].
Proof.
  intros segs. split.
  - vm_compute. reflexivity.
  - rewrite (rewrite_summary_tables_segments segs).
    + vm_compute. reflexivity.
    + vm_compute. reflexivity.
Defined.

(** Read with [segments], the statement covers every document. *)
Corollary rewrite_summary_tables_all : forall lines,
  rewrite_summary_tables lines = flat_map segment_image (segments lines).
Proof.
  intros lines. destruct (segments_cover lines) as [H1 H2].
  rewrite <- H2 at 1. now apply rewrite_segments.
Qed.

(** ** collapse_blank_lines *)

Lemma collapse_step_result : forall compressed k line,
  collapse_step (compressed, k) line =
  (compressed ++ fst (collapse_step ([], k) line),
   snd (collapse_step ([], k) line)).
Proof.
  intros compressed k line. unfold collapse_step.
  destruct (Py.truthy (Py.strip line)); [reflexivity|].
  destruct (S k <=? 2); simpl; now rewrite ?app_nil_r.
Qed.

Lemma collapse_fold_result : forall lines compressed k,
  fst (fold_left collapse_step lines (compressed, k)) =
  compressed ++ collapse_from k lines.
Proof.
  unfold collapse_from.
  induction lines as [|l t IH]; intros compressed k; cbn [fold_left].
  - simpl. now rewrite app_nil_r.
  - rewrite collapse_step_result, IH.
    destruct (collapse_step ([], k) l) as [x k'] eqn:E. simpl fst. simpl snd.
    rewrite (IH x k'). now rewrite app_assoc.
Qed.

Lemma collapse_from_text : forall k l t,
  is_blank l = false ->
  collapse_from k (l :: t) = Py.rstrip l :: collapse_from 0 t.
Proof.
  intros k l t H. unfold collapse_from at 1. cbn [fold_left].
  unfold collapse_step at 2. unfold is_blank in H. unfold Py.truthy.
  rewrite H. simpl negb. cbv iota. apply collapse_fold_result.
Qed.

Lemma collapse_from_blank : forall k l t,
  is_blank l = true ->
  collapse_from k (l :: t) =
  (if S k <=? 2 then [[]] else []) ++ collapse_from (S k) t.
Proof.
  intros k l t H. unfold collapse_from at 1. cbn [fold_left].
  unfold collapse_step at 2. unfold is_blank in H. unfold Py.truthy.
  rewrite H. simpl negb. cbv iota.
  destruct (S k <=? 2); apply collapse_fold_result.
Qed.

(** A run of blank lines met with [blank_streak = k] leaves as many empty
    lines as the cap of two still allows. *)
Lemma collapse_from_blanks : forall run k post,
  forallb is_blank run = true ->
  collapse_from k (run ++ post) =
  repeat [] (Nat.min (2 - k) (List.length run))
  ++ collapse_from (k + List.length run) post.
Proof.
  induction run as [|l r IH]; intros k post H.
  - simpl. rewrite Nat.min_0_r, Nat.add_0_r. reflexivity.
  - simpl in H. apply andb_true_iff in H as [Hl Hr].
    cbn [app]. rewrite collapse_from_blank, IH by assumption.
    cbn [List.length]. rewrite Nat.add_succ_r. cbn [Nat.add].
    rewrite app_assoc. f_equal.
    destruct k as [|[|k]]; reflexivity.
Qed.

Lemma collapse_from_pieces : forall ps k,
  pieces_ok ps = true -> streak_fits k ps = true ->
  collapse_from k (flat_map piece_lines ps) = flat_map piece_image ps.
Proof.
  unfold pieces_ok.
  induction ps as [|p ps IH]; intros k H Hk; [reflexivity|].
  apply andb_true_iff in H as [Hok Hmax].
  cbn [forallb] in Hok. apply andb_true_iff in Hok as [Hp Hok].
  assert (Hmax' : blanks_maximal ps = true).
  { simpl in Hmax. destruct p; auto. destruct ps as [|[] ?]; auto.
    discriminate. }
  cbn [flat_map]. destruct p as [l|r].
  - simpl in Hp. apply negb_true_iff in Hp.
    cbn [piece_lines piece_image app].
    rewrite collapse_from_text by assumption. f_equal.
    apply IH; [now rewrite Hok, Hmax'|].
    destruct ps as [|[] ?]; reflexivity.
  - simpl in Hp, Hk. apply andb_true_iff in Hp as [_ Hr].
    apply Nat.eqb_eq in Hk. subst k.
    cbn [piece_lines piece_image].
    rewrite collapse_from_blanks by assumption. f_equal.
    apply IH; [now rewrite Hok, Hmax'|].
    destruct ps as [|[] ?]; auto. simpl in Hmax. discriminate.
Qed.

(** Every document is cut in exactly this way by [pieces]. *)
Lemma pieces_cover : forall lines,
  pieces_ok (pieces lines) = true
  /\ flat_map piece_lines (pieces lines) = lines.
Proof.
  unfold pieces_ok.
  induction lines as [|l t [IH1 IH2]]; [split; reflexivity|].
  apply andb_true_iff in IH1 as [Hok Hmax].
  cbn [pieces]. destruct (is_blank l) eqn:El.
  - destruct (pieces t) as [|[l'|r'] ps] eqn:Es.
    + simpl. rewrite El. simpl in IH2. subst. split; reflexivity.
    + split.
      * cbn [forallb piece_ok Py.truthy Py.isempty negb].
        rewrite El. simpl in Hok, Hmax |- *. now rewrite Hok, Hmax.
      * simpl in IH2 |- *. now rewrite IH2.
    + split.
      * simpl in Hok, Hmax |- *. rewrite El.
        apply andb_true_iff in Hok as [Hb Hok].
        apply andb_true_iff in Hb as [_ Hb]. rewrite Hb, Hok.
        destruct ps as [|[] ?]; auto.
      * simpl in IH2 |- *. now rewrite IH2.
  - split.
    + simpl. rewrite El, Hok. simpl. exact Hmax.
    + simpl. now rewrite IH2.
Qed.

(** C8: in a document read as non-blank lines and maximal runs of blank
    lines, the collapser removes the trailing whitespace of every non-blank
    line and keeps of every run at most two blank lines, as empty lines,
    whatever came before the run; and the example with three blank lines
    keeps two. *)
Theorem collapse_blank_lines_pieces : forall ps,
  pieces_ok ps = true ->
  collapse_blank_lines (flat_map piece_lines ps) = flat_map piece_image ps
  /\ collapse_blank_lines [lit "a"; []; []; []; lit "b"] =
     [lit "a"; []; []; lit "b"].
Proof.
  intros ps H. split.
  - apply (collapse_from_pieces ps 0 H). now destruct ps as [|[] ?].
  - vm_compute. reflexivity.
Qed.

Lemma collapse_blank_lines_pieces_witness :
  let ps := [Text (lit "a  "); Blanks [[]; lit "  "; []; []];
             Text (lit "b"); Blanks [lit " "]] in
  pieces_ok ps = true
  /\ collapse_blank_lines (flat_map piece_lines ps) =
     [lit "a"; []; []; lit "b"; []].
Proof.
  intros ps. split.
  - vm_compute. reflexivity.
  - rewrite (proj1 (collapse_blank_lines_pieces ps eq_refl)).
    vm_compute. reflexivity.
Defined.

(** Read with [pieces], the statement covers every document. *)
Corollary collapse_blank_lines_all : forall lines,
  collapse_blank_lines lines = flat_map piece_image (pieces lines).
Proof.
  intros lines. destruct (pieces_cover lines) as [H1 H2].
  rewrite <- H2 at 1. apply (collapse_from_pieces _ 0 H1).
  now destruct (pieces lines) as [|[] ?].
Qed.

(** ** convert_file: the assembled text *)

(** The collapser's lines carry no trailing whitespace, so stripping them
    again on the way to [join] changes nothing. *)
Lemma collapse_blank_lines_rstripped : forall lines,
  map Py.rstrip (collapse_blank_lines lines) = collapse_blank_lines lines.
Proof.
  intros lines. rewrite collapse_blank_lines_all.
  induction (pieces lines) as [|p ps IH]; [reflexivity|].
  cbn [flat_map]. rewrite map_app, IH. f_equal.
  destruct p as [l|r]; cbn [piece_image map].
  - now rewrite rstrip_idem.
  - induction (Nat.min 2 (List.length r)) as [|n IHn]; [reflexivity|].
    cbn [repeat map]. now rewrite IHn.
Qed.

Lemma replace_from_nonempty : forall old new c t,
  Py.truthy new = true -> Py.truthy (Py.replace_from old new 0 (c :: t)) = true.
Proof.
  intros old new c t H. cbn [Py.replace_from].
  destruct (Py.startswith (c :: t) old); [|reflexivity].
  destruct new; [discriminate|reflexivity].
Qed.

(** A replacement whose new text is not empty and does not end in a newline
    keeps a text from ending in one. *)
Lemma replace_from_not_nl : forall old new s skip,
  Py.truthy new = true -> ends_with_nl new = false ->
  ends_with_nl s = false ->
  ends_with_nl (Py.replace_from old new skip s) = false.
Proof.
  intros old new s. induction s as [|c t IH]; intros skip Hn Hnew Hs.
  - reflexivity.
  - pose proof (@ends_with_nl_tail c t Hs) as Ht.
    cbn [Py.replace_from]. destruct skip as [|k]; [|now apply IH].
    destruct (Py.startswith (c :: t) old).
    + apply ends_with_nl_app; [assumption|now apply IH].
    + destruct t as [|d t'].
      * exact Hs.
      * pose proof (@replace_from_nonempty old new d t' Hn) as Hy.
        specialize (IH 0 Hn Hnew Ht).
        destruct (Py.replace_from old new 0 (d :: t')); [discriminate|].
        exact IH.
Qed.

Lemma replace_not_nl : forall old new s,
  Py.truthy new = true -> ends_with_nl new = false ->
  ends_with_nl s = false -> ends_with_nl (Py.replace old new s) = false.
Proof. intros. now apply replace_from_not_nl. Qed.

(** C9: the text [convert_file] assembles from the collapser's lines is
    their join with single newlines, trimmed as a whole, with every
    non-breaking space then replaced by a space and the four escaped
    brackets then replaced by their entities in the order given; a non-empty
    result gets one newline appended and did not end in a newline before, an
    empty result stays empty. *)
Theorem assemble_text : forall lines,
  let joined := Py.strip (Py.join [NL] (collapse_blank_lines lines)) in
  let spaced := Py.replace [NBSP] (lit " ") joined in
  let text :=
    Py.replace (lit "\]") (lit "&#93;")
      (Py.replace (lit "\[") (lit "&#91;")
        (Py.replace (lit "\>") (lit "&gt;")
          (Py.replace (lit "\<") (lit "&lt;") spaced))) in
  assemble (collapse_blank_lines lines) =
    (if Py.truthy text then text ++ [NL] else [])
  /\ ends_with_nl text = false
  /\ assemble [lit "x \< y \> z"] = lit "x &lt; y &gt; z" ++ [NL]
  /\ assemble [] = [].
Proof.
  intros lines joined spaced text. split; [|split; [|split]].
  - unfold assemble. rewrite collapse_blank_lines_rstripped.
    fold joined. fold spaced. unfold normalize_entities. fold text.
    destruct text; reflexivity.
  - unfold text, spaced, joined.
    repeat (apply replace_not_nl; [reflexivity|reflexivity|]).
    apply ends_with_nl_strip.
  - vm_compute. reflexivity.
  - vm_compute. reflexivity.
Qed.

(** ** convert_indented_code_blocks *)

Lemma startswith_split : forall p s,
  Py.startswith s p = true -> s = p ++ skipn (List.length p) s.
Proof.
  induction p as [|a p IH]; intros s H; [reflexivity|].
  destruct s as [|c s]; [discriminate|]. simpl in H.
  apply andb_true_iff in H as [Hc Hs]. apply N.eqb_eq in Hc. subst c.
  simpl. f_equal. now apply IH.
Qed.

Lemma indented_nonempty : forall l,
  is_indented l = true -> Py.isempty l = false.
Proof. intros [|c l]; [discriminate|reflexivity]. Qed.

(** Re-emitting a collected indented line gives the line back, unless
    nothing follows its four spaces. *)
Lemma reindent_slice : forall l,
  is_indented l = true ->
  reindent (Py.slice_from 4 l) = if bare l then [] else l.
Proof.
  intros l H. unfold reindent, bare.
  destruct (Py.isempty (Py.slice_from 4 l)); [reflexivity|].
  symmetry. exact (startswith_split INDENT l H).
Qed.

(** The inner loop collects exactly the run of indented and empty lines. *)
Lemma collect_block_run : forall run before post block saw_blank,
  forallb block_line run = true -> stops_block post = true ->
  collect_block before (run ++ post) block saw_blank =
  (block ++ map (Py.slice_from 4) run,
   saw_blank || existsb (@Py.isempty char) run,
   rev run ++ before, post).
Proof.
  induction run as [|l r IH]; intros before post block saw_blank Hr Hp.
  - cbn [app map existsb rev]. rewrite app_nil_r, orb_false_r.
    destruct post as [|l t]; [reflexivity|].
    simpl in Hp. apply negb_true_iff, orb_false_iff in Hp as [H1 H2].
    cbn [collect_block]. now rewrite H1, H2.
  - cbn [forallb] in Hr. apply andb_true_iff in Hr as [Hl Hr].
    cbn [app collect_block map existsb rev].
    destruct (is_indented l) eqn:Ei.
    + rewrite IH by assumption.
      rewrite (indented_nonempty l Ei), <- !app_assoc. reflexivity.
    + simpl in Hl. unfold block_line in Hl. rewrite Ei in Hl. simpl in Hl.
      rewrite Hl. rewrite IH by assumption.
      destruct l; [|discriminate].
      rewrite <- !app_assoc, orb_true_r. reflexivity.
Qed.

Lemma collect_block_length : forall rest before block saw_blank,
  List.length (snd (collect_block before rest block saw_blank))
  <= List.length rest.
Proof.
  induction rest as [|l t IH]; intros before block saw_blank.
  - simpl. lia.
  - cbn [collect_block].
    destruct (is_indented l); [cbn [List.length]; rewrite IH; lia|].
    destruct (Py.isempty l); [cbn [List.length]; rewrite IH; lia|].
    simpl. lia.
Qed.

Lemma collect_block_progress : forall l t before block saw_blank,
  is_indented l = true ->
  List.length (snd (collect_block before (l :: t) block saw_blank))
  <= List.length t.
Proof.
  intros l t before block saw_blank H. cbn [collect_block]. rewrite H.
  apply collect_block_length.
Qed.

(** The fuel [indent_scan] gives the main loop is enough: more of it changes
    nothing. *)
Lemma indent_loop_fuel : forall f1 f2 before rest result,
  List.length rest <= f1 -> List.length rest <= f2 ->
  indent_loop f1 before rest result = indent_loop f2 before rest result.
Proof.
  induction f1 as [|f1 IH]; intros f2 before rest result H1 H2.
  - destruct rest; [|simpl in H1; lia]. destruct f2; reflexivity.
  - destruct rest as [|l t]; [destruct f2; reflexivity|].
    destruct f2 as [|f2]; [simpl in H2; lia|].
    simpl in H1, H2. cbn [indent_loop].
    destruct (is_indented l) eqn:El; [|apply IH; lia].
    destruct (after_text before); [apply IH; lia|].
    pose proof (@collect_block_progress l t before [] false El) as L.
    destruct (collect_block before (l :: t) [] false) as [[[b s] bf] r].
    simpl in L. apply IH; lia.
Qed.

(** A line that is not indented, or an indented line right after a line
    with text, is passed on as it is. *)
Lemma indent_scan_plain : forall before l t result,
  is_indented l && negb (after_text before) = false ->
  indent_scan before (l :: t) result =
  indent_scan (l :: before) t (result ++ [l]).
Proof.
  intros before l t result H. unfold indent_scan.
  cbn [List.length indent_loop].
  destruct (is_indented l); [|reflexivity].
  destruct (after_text before); [reflexivity|discriminate].
Qed.

(** An indented line at the start of the document or right after a blank
    line opens a block: the scan collects the whole run, appends what
    [emit_block] makes of it, and goes on after the run. *)
Lemma indent_scan_block : forall before first more post result,
  after_text before = false -> is_indented first = true ->
  forallb block_line more = true -> stops_block post = true ->
  indent_scan before ((first :: more) ++ post) result =
  indent_scan (rev (first :: more) ++ before) post
    (result ++ emit_block (map (Py.slice_from 4) (first :: more))
                          (existsb (@Py.isempty char) (first :: more))).
Proof.
  intros before first more post result Hb Hf Hm Hp. unfold indent_scan.
  assert (Hr : forallb block_line (first :: more) = true).
  { cbn [forallb]. unfold block_line at 1. now rewrite Hf, Hm. }
  pose proof (collect_block_run (first :: more) before post [] false Hr Hp)
    as C.
  change (List.length ((first :: more) ++ post))
    with (S (List.length (more ++ post))).
  cbn [indent_loop app]. rewrite Hf, Hb.
  change (first :: more ++ post) with ((first :: more) ++ post).
  rewrite C. cbn [app orb].
  apply indent_loop_fuel; rewrite ?length_app; lia.
Qed.

(** What the scan writes does not depend on what was written before. *)
Lemma indent_loop_result : forall fuel before rest result,
  indent_loop fuel before rest result =
  result ++ indent_loop fuel before rest [].
Proof.
  induction fuel as [|f IH]; intros before rest result; cbn [indent_loop].
  - now rewrite app_nil_r.
  - destruct rest as [|l t]; [now rewrite app_nil_r|].
    destruct (is_indented l).
    + destruct (after_text before).
      * rewrite IH, (IH _ _ ([] ++ [l])). now rewrite app_assoc.
      * destruct (collect_block before (l :: t) [] false) as [[[b s] bf] r].
        rewrite IH, (IH _ _ ([] ++ _)). now rewrite app_assoc.
    + rewrite IH, (IH _ _ ([] ++ [l])). now rewrite app_assoc.
Qed.

Lemma indent_scan_result : forall before rest result,
  indent_scan before rest result = result ++ indent_scan before rest [].
Proof. intros. apply indent_loop_result. Qed.

Lemma reindent_not_fence : forall block, ~ In FENCE (map reindent block).
Proof.
  intros block H. apply in_map_iff in H as [part [E _]].
  unfold reindent in E. destruct (Py.isempty part); discriminate.
Qed.

(** C7 (as the code has it): an indented line at the start of the document
    or right after a blank line opens a block; the scan collects the run of
    indented lines (without their four spaces) and of empty lines, and puts
    a fenced block in its place exactly when the run held an empty line and
    the block, trimmed of its leading and trailing empty entries, is not
    empty: the fenced block is the trimmed block between two fence lines.
    Otherwise no fence line is written.  The example after a blank line is
    fenced; after a line with text it keeps its indentation. *)
Theorem indented_block_fencing : forall before first more post result,
  after_text before = false -> is_indented first = true ->
  forallb block_line more = true -> stops_block post = true ->
  let run := first :: more in
  let block := map (Py.slice_from 4) run in
  let saw_blank := existsb (@Py.isempty char) run in
  let out := emit_block block saw_blank in
  indent_scan before (run ++ post) result =
    indent_scan (rev run ++ before) post (result ++ out)
  /\ (if saw_blank && Py.truthy (trim_blank block)
      then out = [FENCE] ++ trim_blank block ++ [FENCE]
      else ~ In FENCE out)
  /\ convert_indented_code_blocks
       [[]; lit "    x = 1"; []; lit "    y = 2"]
     = [[]; lit "```"; lit "x = 1"; []; lit "y = 2"; lit "```"]
  /\ convert_indented_code_blocks
       [lit "intro"; lit "    x = 1"; []; lit "    y = 2"]
     = [lit "intro"; lit "    x = 1"; []; lit "    y = 2"].
Proof.
  intros before first more post result Hb Hf Hm Hp run block saw_blank out.
  split; [|split; [|split]].
  - now apply indent_scan_block.
  - unfold out, emit_block. change (Py.truthy block) with true.
    destruct saw_blank; cbn [andb].
    + destruct (Py.truthy (trim_blank _)); [reflexivity|].
      apply reindent_not_fence.
    + apply reindent_not_fence.
  - vm_compute. reflexivity.
  - vm_compute. reflexivity.
Qed.

Lemma indented_block_fencing_witness :
  after_text [[]] = false
  /\ is_indented (lit "    x = 1") = true
  /\ forallb block_line [[]; lit "    y = 2"; []] = true
  /\ stops_block [lit "end"] = true
  /\ indent_scan [[]] ([lit "    x = 1"; []; lit "    y = 2"; []]
                       ++ [lit "end"]) [[]]
     = [[]; lit "```"; lit "x = 1"; []; lit "y = 2"; lit "```"; lit "end"].
Proof.
  repeat (split; [vm_compute; reflexivity|]).
  rewrite (proj1 (indented_block_fencing [[]] (lit "    x = 1")
                    [[]; lit "    y = 2"; []] [lit "end"] [[]]
                    eq_refl eq_refl eq_refl eq_refl)).
  vm_compute. reflexivity.
Defined.

(** C7 (as stated) fails: the block collected from a line of four spaces
    and an empty line is not empty and held an empty line, yet no fenced
    block is written for it. *)
Lemma indented_block_fencing_blank_block :
  let run := [lit "    "; []] in
  let block := map (Py.slice_from 4) run in
  collect_block [] run [] false = (block, true, rev run, [])
  /\ Py.truthy block && true = true
  /\ convert_indented_code_blocks run = []
  /\ convert_indented_code_blocks run <>
     [FENCE] ++ trim_blank block ++ [FENCE].
Proof.
  cbv zeta. repeat split; try (vm_compute; reflexivity).
  vm_compute. discriminate.
Qed.

(** C3 (as the code has it): a collected block made of indented lines only,
    hence not fenced, is written back line by line: a line with text after
    its four spaces is written as it was, a line of exactly four spaces is
    written as an empty line.  When no line of the run is bare, the lines
    written are those read. *)
Theorem indented_block_reemitted : forall before first more post result,
  after_text before = false -> is_indented first = true ->
  forallb is_indented more = true -> stops_block post = true ->
  let run := first :: more in
  indent_scan before (run ++ post) result =
    indent_scan (rev run ++ before) post
      (result ++ map (fun l => if bare l then [] else l) run)
  /\ (if existsb bare run then True
      else indent_scan before (run ++ post) result =
           indent_scan (rev run ++ before) post (result ++ run)).
Proof.
  intros before first more post result Hb Hf Hm Hp run.
  assert (Hrun : forallb is_indented run = true).
  { unfold run. cbn [forallb]. now rewrite Hf, Hm. }
  assert (Hbl : forallb block_line more = true).
  { clear - Hm. induction more as [|l r IH]; [reflexivity|].
    cbn [forallb] in *. apply andb_true_iff in Hm as [Hl Hr].
    unfold block_line at 1. now rewrite Hl, IH. }
  assert (Hsaw : existsb (@Py.isempty char) run = false).
  { clear - Hrun. induction run as [|l r IH]; [reflexivity|].
    cbn [forallb existsb] in *. apply andb_true_iff in Hrun as [Hl Hr].
    now rewrite (indented_nonempty l Hl), IH. }
  assert (Hout : emit_block (map (Py.slice_from 4) run) false =
                 map (fun l => if bare l then [] else l) run).
  { unfold emit_block. rewrite andb_false_r, map_map.
    clear - Hrun. induction run as [|l r IH]; [reflexivity|].
    cbn [forallb map] in *. apply andb_true_iff in Hrun as [Hl Hr].
    now rewrite reindent_slice, IH. }
  assert (E : indent_scan before (run ++ post) result =
              indent_scan (rev run ++ before) post
                (result ++ map (fun l => if bare l then [] else l) run)).
  { unfold run at 1 2. rewrite indent_scan_block by assumption.
    fold run. now rewrite Hsaw, Hout. }
  split; [exact E|].
  destruct (existsb bare run) eqn:Eb; [exact I|].
  rewrite E. do 2 f_equal.
  clear - Eb. induction run as [|l r IH]; [reflexivity|].
  cbn [existsb map] in *. apply orb_false_iff in Eb as [El Er].
  now rewrite El, IH.
Qed.

Lemma indented_block_reemitted_witness :
  after_text [] = false
  /\ is_indented (lit "    item") = true
  /\ forallb is_indented [lit "    "; lit "      nested"] = true
  /\ stops_block [lit "text"] = true
  /\ indent_scan [] ([lit "    item"; lit "    "; lit "      nested"]
                     ++ [lit "text"]) []
     = [lit "    item"; []; lit "      nested"; lit "text"].
Proof.
  repeat (split; [vm_compute; reflexivity|]).
  rewrite (proj1 (indented_block_reemitted [] (lit "    item")
                    [lit "    "; lit "      nested"] [lit "text"] []
                    eq_refl eq_refl eq_refl eq_refl)).
  vm_compute. reflexivity.
Defined.

(** C3 (as stated) fails: a document that is one line of four spaces is a
    block that is not fenced, and it is written back as an empty line, not
    as it was read. *)
Lemma indented_block_bare_line_not_verbatim :
  collect_block [] [lit "    "] [] false = ([[]], false, [lit "    "], [])
  /\ convert_indented_code_blocks [lit "    "] = [[]]
  /\ convert_indented_code_blocks [lit "    "] <> [lit "    "].
Proof.
  repeat split; try (vm_compute; reflexivity).
  vm_compute. discriminate.
Qed.

(** * Further properties *)

(** ** More facts on the string operations *)

Lemma drop_while_end_prefix : forall (A : Type) (p : A -> bool) s,
  exists post, s = Py.drop_while_end p s ++ post /\ forallb p post = true.
Proof.
  intros A p s. unfold Py.drop_while_end.
  destruct (drop_while_suffix p (rev s)) as [pre [E H]].
  exists (rev pre). split.
  - rewrite <- rev_app_distr, <- E. symmetry. apply rev_involutive.
  - apply forallb_forall. intros x Hx. apply in_rev in Hx.
    revert x Hx. now apply forallb_forall.
Qed.

Lemma drop_while_end_snoc_drop : forall (A : Type) (p : A -> bool) s c,
  p c = true -> Py.drop_while_end p (s ++ [c]) = Py.drop_while_end p s.
Proof.
  intros A p s c H. unfold Py.drop_while_end.
  rewrite rev_app_distr. simpl. now rewrite H.
Qed.

(** A trimmed text sits inside the text, between two runs of whitespace. *)
Lemma strip_inside : forall s,
  exists w1 w2, s = w1 ++ Py.strip s ++ w2
                /\ forallb Py.isspace w1 = true
                /\ forallb Py.isspace w2 = true.
Proof.
  intros s. unfold Py.strip, Py.lstrip, Py.rstrip.
  destruct (drop_while_end_prefix Py.isspace s) as [w2 [E2 H2]].
  destruct (drop_while_suffix Py.isspace (Py.drop_while_end Py.isspace s))
    as [w1 [E1 H1]].
  exists w1, w2. repeat split; auto.
  rewrite app_assoc, <- E1. exact E2.
Qed.

Lemma In_strip_inv : forall c s, In c (Py.strip s) -> In c s.
Proof.
  intros c s H. destruct (strip_inside s) as [w1 [w2 [E _]]].
  rewrite E. apply in_or_app. right. apply in_or_app. now left.
Qed.

Lemma existsb_eqb_In : forall (c : char) s,
  existsb (N.eqb c) s = true <-> In c s.
Proof.
  intros c s. rewrite existsb_exists. split.
  - intros [x [Hx E]]. apply N.eqb_eq in E. now subst.
  - intros H. exists c. split; auto. apply N.eqb_refl.
Qed.

Lemma startswith_app : forall sub b, Py.startswith (sub ++ b) sub = true.
Proof.
  induction sub as [|a sub IH]; intros b; [reflexivity|].
  simpl. now rewrite N.eqb_refl, IH.
Qed.

Lemma contains_prefix : forall s sub,
  Py.startswith s sub = true -> Py.contains s sub = true.
Proof.
  intros [|c t] sub H; cbn [Py.contains]; now rewrite H.
Qed.

Lemma contains_inside : forall a sub b,
  Py.contains (a ++ sub ++ b) sub = true.
Proof.
  induction a as [|c a IH]; intros sub b.
  - cbn [app]. apply contains_prefix. apply startswith_app.
  - cbn [app Py.contains]. rewrite IH. apply orb_true_r.
Qed.

(** ** split_table_row, further *)

(** The text after the first marker is an end piece of the text. *)
Lemma after_first_marker_suffix : forall s,
  exists pre, s = pre ++ after_first_marker s.
Proof.
  induction s as [|c t [pre IH]].
  - now exists [].
  - cbn [after_first_marker]. destruct (c =? chr "|")%N.
    + now exists [c].
    + exists (c :: pre). simpl. now f_equal.
Qed.

Lemma after_first_marker_none : forall s,
  existsb (N.eqb (chr "|")) s = false -> after_first_marker s = [].
Proof.
  induction s as [|c t IH]; [reflexivity|].
  cbn [existsb after_first_marker]. intros H.
  apply orb_false_iff in H as [Hc Ht]. rewrite N.eqb_sym in Hc.
  rewrite Hc. now apply IH.
Qed.

(** X1: every cell [split_table_row] returns is trimmed: it has neither
    leading nor trailing whitespace. *)
Theorem split_table_row_cells_trimmed : forall line,
  Forall (fun cell => Py.strip cell = cell) (split_table_row line).
Proof. exact split_table_row_trimmed. Qed.

(** X2: a row without any marker character has no cells, whatever else it
    holds. *)
Theorem split_table_row_no_marker : forall line,
  existsb (N.eqb (chr "|")) line = false -> split_table_row line = [].
Proof.
  intros line H. unfold split_table_row. rewrite split_skips_to_marker.
  rewrite after_first_marker_none; [reflexivity|].
  destruct (existsb (N.eqb (chr "|")) (Py.rstrip_chars [NL] line)) eqn:E;
    [|reflexivity].
  apply existsb_eqb_In in E.
  destruct (drop_while_end_prefix (fun c => existsb (N.eqb c) [NL]) line)
    as [post [El _]].
  assert (Hin : In (chr "|") line).
  { rewrite El. apply in_or_app. now left. }
  apply existsb_eqb_In in Hin. congruence.
Qed.

Lemma split_table_row_no_marker_witness :
  existsb (N.eqb (chr "|")) (lit "plain \ text") = false
  /\ split_table_row (lit "plain \ text") = [].
Proof.
  split; [reflexivity|].
  apply (split_table_row_no_marker (lit "plain \ text")). reflexivity.
Defined.

Lemma marker_free_strip : forall s,
  marker_free s = true -> marker_free (Py.strip s) = true.
Proof.
  unfold marker_free. intros s H. apply negb_true_iff in H.
  apply negb_true_iff.
  destruct (existsb (N.eqb (chr "|")) (Py.strip s)) eqn:E; auto.
  apply existsb_eqb_In, In_strip_inv, existsb_eqb_In in E. congruence.
Qed.

Lemma marker_free_snoc : forall s c,
  marker_free s = true -> (c =? chr "|")%N = false ->
  marker_free (s ++ [c]) = true.
Proof.
  unfold marker_free. intros s c H Hc. apply negb_true_iff in H.
  apply negb_true_iff. rewrite existsb_app. apply orb_false_iff.
  split; [exact H|]. cbn [existsb]. rewrite N.eqb_sym, Hc. reflexivity.
Qed.

(** While no backslash is read the escape flag stays clear and no marker
    gets into the buffer or into a cell. *)
Lemma split_step_marker_free : forall st ch,
  (ch =? chr "\")%N = false ->
  escape st = false /\ marker_free (cell_chars st) = true
  /\ Forall (fun c => marker_free c = true) (cells st) ->
  escape (split_step st ch) = false
  /\ marker_free (cell_chars (split_step st ch)) = true
  /\ Forall (fun c => marker_free c = true) (cells (split_step st ch)).
Proof.
  intros st ch Hb [He [Hc Hcs]]. unfold split_step.
  destruct (started st); cbn [negb].
  - rewrite He, Hb. cbn [negb andb]. rewrite andb_true_r.
    destruct (ch =? chr "|")%N eqn:Em; cbn [escape cell_chars cells].
    + repeat split; auto. apply Forall_app. split; auto.
      constructor; auto. now apply marker_free_strip.
    + repeat split; auto. now apply marker_free_snoc.
  - destruct (ch =? chr "|")%N; cbn [escape cell_chars cells]; auto.
Qed.

Lemma split_fold_marker_free : forall s st,
  forallb (fun ch => negb (ch =? chr "\")%N) s = true ->
  escape st = false /\ marker_free (cell_chars st) = true
  /\ Forall (fun c => marker_free c = true) (cells st) ->
  marker_free (cell_chars (fold_left split_step s st)) = true
  /\ Forall (fun c => marker_free c = true)
            (cells (fold_left split_step s st)).
Proof.
  induction s as [|ch t IH]; intros st Hs Hst.
  - simpl. tauto.
  - cbn [forallb] in Hs. apply andb_true_iff in Hs as [Hc Ht].
    apply negb_true_iff in Hc. cbn [fold_left].
    apply IH; auto. now apply split_step_marker_free.
Qed.

(** X3: in a row without a backslash no cell holds a marker character. *)
Theorem split_table_row_marker_free : forall line,
  existsb (N.eqb (chr "\")) line = false ->
  Forall (fun cell => marker_free cell = true) (split_table_row line).
Proof.
  intros line H. unfold split_table_row, split_finish.
  assert (Hs : forallb (fun ch => negb (ch =? chr "\")%N)
                 (Py.rstrip_chars [NL] line) = true).
  { apply forallb_forall. intros c Hc. apply negb_true_iff.
    destruct (N.eqb_spec c (chr "\")) as [->|]; auto.
    destruct (drop_while_end_prefix (fun c => existsb (N.eqb c) [NL]) line)
      as [post [El _]].
    assert (Hin : In (chr "\") line).
    { rewrite El. apply in_or_app. now left. }
    apply existsb_eqb_In in Hin. congruence. }
  destruct (split_fold_marker_free (Py.rstrip_chars [NL] line) split_init Hs)
    as [Hc Hcs].
  { repeat split; auto. }
  destruct (Py.truthy _); auto.
  apply Forall_app. split; auto. constructor; auto.
  now apply marker_free_strip.
Qed.

Lemma split_table_row_marker_free_witness :
  existsb (N.eqb (chr "\")) (lit "| a || b c | d") = false
  /\ split_table_row (lit "| a || b c | d") = [lit "a"; []; lit "b c"; lit "d"]
  /\ Forall (fun cell => marker_free cell = true)
            (split_table_row (lit "| a || b c | d")).
Proof.
  split; [reflexivity|]. split; [vm_compute; reflexivity|].
  apply (split_table_row_marker_free (lit "| a || b c | d")). reflexivity.
Defined.

(** X4: newlines at the end of the row are not read. *)
Theorem split_table_row_trailing_newlines : forall line n,
  split_table_row (line ++ repeat NL n) = split_table_row line.
Proof.
  intros line n. unfold split_table_row. f_equal. f_equal.
  induction n as [|n IH]; cbn [repeat].
  - now rewrite app_nil_r.
  - rewrite repeat_cons, app_assoc.
    unfold Py.rstrip_chars in *.
    rewrite drop_while_end_snoc_drop; [exact IH|reflexivity].
Qed.

Lemma piece_of_grow : forall line cell x y,
  piece_of line cell -> piece_of (x ++ line ++ y) cell.
Proof.
  intros line cell x y [a [b E]]. exists (x ++ a), (b ++ y).
  rewrite E, <- !app_assoc. reflexivity.
Qed.

Lemma piece_of_strip : forall pre s post,
  piece_of (pre ++ s ++ post) (Py.strip s).
Proof.
  intros pre s post. destruct (strip_inside s) as [w1 [w2 [E _]]].
  exists (pre ++ w1), (w2 ++ post). rewrite E at 1.
  rewrite <- !app_assoc. reflexivity.
Qed.

(** Once the row has started, the buffer is the end of what was read and
    every cell is a piece of it. *)
Lemma split_step_pieces : forall st ch done,
  started st = true ->
  (exists pre, done = pre ++ cell_chars st) ->
  Forall (piece_of done) (cells st) ->
  started (split_step st ch) = true
  /\ (exists pre, done ++ [ch] = pre ++ cell_chars (split_step st ch))
  /\ Forall (piece_of (done ++ [ch])) (cells (split_step st ch)).
Proof.
  intros st ch done Hs [pre Hpre] Hcs.
  assert (Hold : Forall (piece_of (done ++ [ch])) (cells st)).
  { eapply Forall_impl; [|exact Hcs]. intros c Hc.
    apply (piece_of_grow [] [ch]) in Hc. exact Hc. }
  unfold split_step. rewrite Hs. cbn [negb].
  destruct ((ch =? chr "|")%N && negb (escape st)).
  - cbn [started cell_chars cells]. repeat split; auto.
    + exists (done ++ [ch]). now rewrite app_nil_r.
    + apply Forall_app. split; auto. constructor; auto.
      rewrite Hpre, <- app_assoc. apply piece_of_strip.
  - destruct ((ch =? chr "\")%N && negb (escape st));
      cbn [started cell_chars cells]; repeat split; auto;
      exists pre; rewrite Hpre; now rewrite app_assoc.
Qed.

Lemma split_fold_pieces : forall s st done,
  started st = true ->
  (exists pre, done = pre ++ cell_chars st) ->
  Forall (piece_of done) (cells st) ->
  (exists pre, done ++ s = pre ++ cell_chars (fold_left split_step s st))
  /\ Forall (piece_of (done ++ s)) (cells (fold_left split_step s st)).
Proof.
  induction s as [|ch t IH]; intros st done Hs Hpre Hcs.
  - simpl. rewrite app_nil_r. auto.
  - cbn [fold_left].
    destruct (split_step_pieces st ch Hs Hpre Hcs) as [Hs' [Hpre' Hcs']].
    replace (done ++ ch :: t) with ((done ++ [ch]) ++ t)
      by (now rewrite <- app_assoc).
    now apply IH.
Qed.

Lemma split_table_row_cells_inside_aux : forall line,
  Forall (piece_of line) (split_table_row line).
Proof.
  intros line. unfold split_table_row. rewrite split_skips_to_marker.
  destruct (drop_while_end_prefix (fun c => existsb (N.eqb c) [NL]) line)
    as [post [El _]].
  fold (Py.rstrip_chars [NL] line) in El.
  destruct (after_first_marker_suffix (Py.rstrip_chars [NL] line))
    as [pre Eb].
  set (body := after_first_marker (Py.rstrip_chars [NL] line)) in *.
  assert (Hgrow : forall c, piece_of body c -> piece_of line c).
  { intros c Hc. rewrite El, Eb, <- app_assoc. now apply piece_of_grow. }
  unfold cells_of_body, split_finish.
  destruct (split_fold_pieces body split_started (done := []) eq_refl)
    as [[p Hp] Hcs].
  { now exists []. }
  { constructor. }
  cbn [app] in Hp, Hcs.
  assert (Hcells : Forall (piece_of line)
                     (cells (fold_left split_step body split_started))).
  { eapply Forall_impl; [|exact Hcs]. exact Hgrow. }
  destruct (Py.truthy _); auto.
  apply Forall_app. split; auto. constructor; auto.
  apply Hgrow.
  pose proof (piece_of_strip p
                (cell_chars (fold_left split_step body split_started)) [])
    as Hx.
  rewrite app_nil_r, <- Hp in Hx. exact Hx.
Qed.

(** X5: every cell is a contiguous piece of the row it was split from. *)
Theorem split_table_row_cells_inside : forall line,
  Forall (piece_of line) (split_table_row line).
Proof. exact split_table_row_cells_inside_aux. Qed.

(** ** is_summary_table and format_summary_table, further *)

Lemma is_summary_table_concat : forall a b,
  is_summary_table (a ++ b) = is_summary_table a || is_summary_table b.
Proof.
  induction a as [|line rest IH]; intros b; [reflexivity|].
  cbn [app is_summary_table].
  destruct (negb (Py.truthy (Py.strip line))); auto.
  destruct (negb (Py.contains line (lit "**"))); auto.
  destruct (split_table_row line) as [|first extras]; auto.
  destruct (SummaryRowRe.rmatch first); auto.
Qed.

(** X6: the classifier answers [True] for two blocks put together exactly
    when it does for one of them. *)
Theorem is_summary_table_app : forall a b,
  is_summary_table (a ++ b) = is_summary_table a || is_summary_table b.
Proof. exact is_summary_table_concat. Qed.

Lemma rmatch_two_stars : forall s g,
  SummaryRowRe.rmatch s = Some g -> exists t, s = lit "**" ++ t.
Proof.
  intros [|a [|b [|c t]]] g; simpl; try discriminate.
  destruct (N.eqb_spec a 42); [|discriminate].
  destruct (N.eqb_spec b 42); [|discriminate].
  intros _. subst. now exists (c :: t).
Qed.

(** A line whose first cell matches the pattern holds two asterisks in a
    row, so the classifier's test for them never turns such a line away. *)
Lemma first_cell_match_has_stars : forall line first extras g,
  split_table_row line = first :: extras ->
  SummaryRowRe.rmatch first = Some g ->
  Py.contains line (lit "**") = true.
Proof.
  intros line first extras g Er M.
  pose proof (split_table_row_cells_inside_aux line) as P.
  rewrite Er in P. inversion P as [|? ? Hp _]; subst.
  destruct Hp as [a [b E]].
  apply rmatch_two_stars in M as [t ->].
  rewrite E, <- app_assoc. apply contains_inside.
Qed.

(** On one line the classifier and the formatter's filter agree. *)
Lemma classifier_line : forall line,
  is_summary_table [line] = qualifying line.
Proof.
  intros line. destruct (qualifying line) eqn:Q.
  - unfold qualifying in Q.
    apply andb_true_iff in Q as [Q Q3]. apply andb_true_iff in Q as [Q1 _].
    cbn [is_summary_table]. rewrite Q1. cbn [negb].
    destruct (split_table_row line) as [|first extras] eqn:Er;
      [discriminate|].
    destruct (SummaryRowRe.rmatch first) as [g|] eqn:M; [|discriminate].
    rewrite (first_cell_match_has_stars line Er M). reflexivity.
  - destruct (is_summary_table [line]) eqn:C; [|reflexivity].
    apply is_summary_table_qualifying in C. cbn [existsb] in C.
    rewrite orb_false_r in C. congruence.
Qed.

Lemma classifier_filter : forall table_lines,
  is_summary_table table_lines = existsb qualifying table_lines.
Proof.
  induction table_lines as [|l t IH]; [reflexivity|].
  change (l :: t) with ([l] ++ t).
  rewrite is_summary_table_concat, classifier_line, IH. reflexivity.
Qed.

Lemma existsb_filter_nil : forall (A : Type) (f : A -> bool) l,
  existsb f l = negb (Py.isempty (filter f l)).
Proof.
  induction l as [|x t IH]; [reflexivity|].
  simpl. destruct (f x); simpl; auto.
Qed.

(** X7: the classifier accepts a block exactly when one of its rows
    qualifies for the formatter, that is, exactly when the formatter writes
    something after the header and the separator. *)
Theorem is_summary_table_iff_data_row : forall table_lines,
  is_summary_table table_lines = existsb qualifying table_lines
  /\ is_summary_table table_lines =
     (2 <? List.length (format_summary_table table_lines)).
Proof.
  intros table_lines. split; [apply classifier_filter|].
  rewrite classifier_filter, existsb_filter_nil.
  unfold format_summary_table. rewrite format_fold, length_app, length_map.
  destruct (filter qualifying table_lines); reflexivity.
Qed.

Lemma row_of_is_table_line : forall line,
  qualifying line = true -> is_table_line (row_of line) = true.
Proof.
  intros line Q. unfold qualifying in Q.
  apply andb_true_iff in Q as [_ Q]. unfold row_of.
  destruct (split_table_row line) as [|first extras]; [discriminate|].
  destruct (SummaryRowRe.rmatch first) as [[g1 g2]|]; [|discriminate].
  reflexivity.
Qed.

Lemma format_rows_table_lines : forall table_lines,
  forallb is_table_line (map row_of (filter qualifying table_lines)) = true.
Proof.
  induction table_lines as [|l t IH]; [reflexivity|].
  cbn [filter]. destruct (qualifying l) eqn:Q; auto.
  cbn [map forallb]. now rewrite row_of_is_table_line, IH.
Qed.

Lemma format_table_lines : forall table_lines,
  forallb is_table_line (format_summary_table table_lines) = true.
Proof.
  intros table_lines. unfold format_summary_table. rewrite format_fold.
  rewrite forallb_app, format_rows_table_lines. reflexivity.
Qed.

(** X8: every line the formatter returns starts with the marker: its
    output is a table block again. *)
Theorem format_summary_table_is_table : forall table_lines,
  forallb is_table_line (format_summary_table table_lines) = true.
Proof. exact format_table_lines. Qed.

(** X9: the rows of two blocks put together are the rows of the first
    followed by those of the second; the header and the separator come
    once, at the top. *)
Theorem format_summary_table_app : forall a b,
  format_summary_table (a ++ b) =
  format_summary_table a ++ skipn 2 (format_summary_table b).
Proof.
  intros a b. unfold format_summary_table.
  rewrite !format_fold, filter_app, map_app, <- app_assoc. reflexivity.
Qed.

(** X10: the formatter never returns more data rows than it was given
    lines, and for an empty block it returns the header and the separator
    alone. *)
Theorem format_summary_table_length : forall table_lines,
  2 <= List.length (format_summary_table table_lines)
    <= 2 + List.length table_lines
  /\ format_summary_table [] = [HEADER_ROW; SEPARATOR_ROW].
Proof.
  intros table_lines. unfold format_summary_table.
  rewrite format_fold, length_app, length_map.
  pose proof (filter_length_le qualifying table_lines).
  simpl. split; [lia|reflexivity].
Qed.

(** ** rewrite_summary_tables, further *)

Lemma rewrite_plain_document : forall lines,
  forallb is_plain_line lines = true -> rewrite_summary_tables lines = lines.
Proof.
  induction lines as [|l t IH]; intros H; [reflexivity|].
  cbn [forallb] in H. apply andb_true_iff in H as [Hl Ht].
  apply negb_true_iff in Hl.
  rewrite rewrite_plain_line by assumption. now rewrite IH.
Qed.

(** X11: a document in which no line starts with the marker comes back
    unchanged. *)
Theorem rewrite_summary_tables_no_table : forall lines,
  forallb is_plain_line lines = true -> rewrite_summary_tables lines = lines.
Proof. exact rewrite_plain_document. Qed.

Lemma rewrite_summary_tables_no_table_witness :
  forallb is_plain_line [lit "# Title"; []; lit " | not a row"] = true
  /\ rewrite_summary_tables [lit "# Title"; []; lit " | not a row"]
     = [lit "# Title"; []; lit " | not a row"].
Proof.
  split; [reflexivity|].
  apply (rewrite_summary_tables_no_table
           [lit "# Title"; []; lit " | not a row"]).
  reflexivity.
Defined.

Lemma filter_plain_of_table : forall block,
  forallb is_table_line block = true -> filter is_plain_line block = [].
Proof.
  induction block as [|l t IH]; intros H; [reflexivity|].
  cbn [forallb] in H. apply andb_true_iff in H as [Hl Ht].
  cbn [filter]. unfold is_plain_line at 1. rewrite Hl. now apply IH.
Qed.

Lemma filter_plain_segments : forall segs,
  forallb segment_ok segs = true ->
  filter is_plain_line (flat_map segment_image segs) =
  filter is_plain_line (flat_map segment_lines segs).
Proof.
  induction segs as [|s segs IH]; intros H; [reflexivity|].
  cbn [forallb] in H. apply andb_true_iff in H as [Hs Hok].
  cbn [flat_map]. rewrite !filter_app, IH by assumption. f_equal.
  destruct s as [l|b]; [reflexivity|].
  simpl in Hs. apply andb_true_iff in Hs as [_ Hb].
  cbn [segment_image segment_lines].
  rewrite (filter_plain_of_table b Hb).
  destruct (is_summary_table b).
  - apply filter_plain_of_table, format_table_lines.
  - now apply filter_plain_of_table.
Qed.

(** X12: the lines of the output that do not start with the marker are
    those of the input, in the same order: the rewriter adds, drops and
    changes table lines only. *)
Theorem rewrite_summary_tables_keeps_plain_lines : forall lines,
  filter is_plain_line (rewrite_summary_tables lines) =
  filter is_plain_line lines.
Proof.
  intros lines. rewrite rewrite_summary_tables_all.
  destruct (segments_cover lines) as [H1 H2].
  rewrite <- H2 at 2. apply filter_plain_segments.
  unfold segmentation in H1. now apply andb_true_iff in H1 as [H1 _].
Qed.

Lemma rewrite_segments_then : forall segs post,
  segmentation segs = true -> starts_plain post = true ->
  rewrite_summary_tables (flat_map segment_lines segs ++ post) =
  flat_map segment_image segs ++ rewrite_summary_tables post.
Proof.
  unfold segmentation.
  induction segs as [|s segs IH]; intros post H Hp; [reflexivity|].
  apply andb_true_iff in H as [Hok Hmax].
  cbn [forallb] in Hok. apply andb_true_iff in Hok as [Hs Hok].
  assert (Hmax' : runs_maximal segs = true).
  { simpl in Hmax. destruct s; auto. destruct segs as [|[] ?]; auto.
    discriminate. }
  assert (Hrest : forallb segment_ok segs && runs_maximal segs = true)
    by (now rewrite Hok, Hmax').
  cbn [flat_map]. rewrite <- !app_assoc. destruct s as [l|b].
  - simpl in Hs. apply negb_true_iff in Hs.
    cbn [segment_lines segment_image app].
    rewrite rewrite_plain_line by assumption. now rewrite IH.
  - simpl in Hs. apply andb_true_iff in Hs as [Hn Hb].
    cbn [segment_lines segment_image].
    rewrite rewrite_table_run; auto.
    + now rewrite IH.
    + destruct segs as [|[l'|b'] segs']; auto.
      * simpl in Hok. apply andb_true_iff in Hok as [Hl' _]. exact Hl'.
      * simpl in Hmax. discriminate.
Qed.

(** X13: cut right before a line that does not start with the marker, a
    document is rewritten part by part. *)
Theorem rewrite_summary_tables_app : forall a b,
  starts_plain b = true ->
  rewrite_summary_tables (a ++ b) =
  rewrite_summary_tables a ++ rewrite_summary_tables b.
Proof.
  intros a b Hb. destruct (segments_cover a) as [H1 H2].
  rewrite (rewrite_summary_tables_all a).
  rewrite <- H2 at 1. now apply rewrite_segments_then.
Qed.

Lemma rewrite_summary_tables_app_witness :
  starts_plain [lit "text"; lit "| **b:** 2 |"] = true
  /\ rewrite_summary_tables
       ([lit "| **a:** 1 |"] ++ [lit "text"; lit "| **b:** 2 |"])
     = rewrite_summary_tables [lit "| **a:** 1 |"]
       ++ rewrite_summary_tables [lit "text"; lit "| **b:** 2 |"].
Proof.
  split; [reflexivity|].
  apply (rewrite_summary_tables_app [lit "| **a:** 1 |"]
           [lit "text"; lit "| **b:** 2 |"]).
  reflexivity.
Defined.

(** ** collapse_blank_lines, further *)

Lemma strip_rstrip : forall l, Py.strip (Py.rstrip l) = Py.strip l.
Proof. intros l. unfold Py.strip. now rewrite rstrip_idem. Qed.

Lemma has_text_rstrip : forall l,
  is_blank l = false ->
  is_blank (Py.rstrip l) = false /\ Py.isempty (Py.rstrip l) = false.
Proof.
  intros l H. unfold is_blank in *. rewrite strip_rstrip. split; auto.
  destruct (Py.rstrip l) eqn:E; auto.
  unfold Py.strip, Py.lstrip in H. rewrite E in H. discriminate.
Qed.

Lemma blank_rstrip : forall l, is_blank l = true -> Py.rstrip l = [].
Proof.
  intros l H. unfold is_blank, Py.strip, Py.lstrip in H.
  destruct (drop_while_suffix Py.isspace (Py.rstrip l)) as [pre [E Hp]].
  destruct (Py.drop_while Py.isspace (Py.rstrip l)); [|discriminate].
  rewrite app_nil_r in E. rewrite <- E in Hp.
  pose proof (drop_while_end_last Py.isspace l) as L.
  fold (Py.rstrip l) in L.
  destruct (rev (Py.rstrip l)) as [|c r] eqn:R.
  - apply (f_equal (@rev char)) in R. now rewrite rev_involutive in R.
  - simpl in L. apply negb_true_iff in L.
    assert (In c (Py.rstrip l)) by (apply in_rev; rewrite R; now left).
    rewrite forallb_forall in Hp. rewrite Hp in L by assumption.
    discriminate.
Qed.

(** A line as the collapser leaves it: no trailing whitespace, and blank
    only if empty. *)
Lemma collapse_from_lines : forall lines k,
  Forall (fun l => Py.rstrip l = l /\ is_blank l = Py.isempty l)
         (collapse_from k lines).
Proof.
  induction lines as [|l t IH]; intros k; [constructor|].
  destruct (is_blank l) eqn:B.
  - rewrite collapse_from_blank by assumption.
    apply Forall_app. split; [|apply IH].
    destruct (S k <=? 2); constructor; auto.
  - rewrite collapse_from_text by assumption.
    constructor; [|apply IH]. split; [apply rstrip_idem|].
    destruct (has_text_rstrip l B) as [H1 H2]. congruence.
Qed.

(** X14: no line of the collapser's output has trailing whitespace, and a
    line of it that is blank is the empty line. *)
Theorem collapse_blank_lines_lines : forall lines,
  Forall (fun l => Py.rstrip l = l /\ is_blank l = Py.isempty l)
         (collapse_blank_lines lines).
Proof. intros lines. apply collapse_from_lines. Qed.

Lemma collapse_from_no_three : forall lines k,
  leading_empty (collapse_from k lines) <= 2 - k
  /\ no_three_empty (collapse_from k lines) = true.
Proof.
  induction lines as [|l t IH]; intros k.
  - split; [apply Nat.le_0_l|reflexivity].
  - destruct (is_blank l) eqn:B.
    + rewrite collapse_from_blank by assumption.
      destruct (IH (S k)) as [H1 H2].
      destruct (S k <=? 2) eqn:K.
      * apply Nat.leb_le in K. cbn [app no_three_empty leading_empty Py.isempty].
        rewrite H2. split; [lia|].
        rewrite andb_true_r. apply Nat.leb_le. lia.
      * cbn [app]. split; [lia|assumption].
    + rewrite collapse_from_text by assumption.
      destruct (IH 0) as [H1 H2].
      destruct (has_text_rstrip l B) as [_ E].
      cbn [no_three_empty leading_empty]. rewrite E, H2.
      split; [apply Nat.le_0_l|reflexivity].
Qed.

(** X15: the collapser's output never has three empty lines in a row. *)
Theorem collapse_blank_lines_no_three_empty : forall lines,
  no_three_empty (collapse_blank_lines lines) = true.
Proof. intros lines. apply (collapse_from_no_three lines 0). Qed.

Lemma collapse_from_text_lines : forall lines k,
  filter has_text (collapse_from k lines) =
  map Py.rstrip (filter has_text lines)
  /\ List.length (collapse_from k lines) <= List.length lines.
Proof.
  induction lines as [|l t IH]; intros k; [split; auto|].
  cbn [filter List.length]. unfold has_text at 2.
  destruct (is_blank l) eqn:B; cbn [negb].
  - rewrite collapse_from_blank by assumption.
    destruct (IH (S k)) as [H1 H2].
    destruct (S k <=? 2); cbn [app filter List.length].
    + change (has_text []) with false. cbv iota. split; [exact H1|lia].
    + split; [exact H1|lia].
  - rewrite collapse_from_text by assumption.
    destruct (IH 0) as [H1 H2].
    destruct (has_text_rstrip l B) as [E _].
    cbn [filter map List.length]. unfold has_text at 1. rewrite E.
    cbn [negb]. rewrite H1. split; auto; lia.
Qed.

(** X16: the lines with text come out in the order they came in, each
    without its trailing whitespace; only blank lines are dropped, so the
    output is never longer than the input. *)
Theorem collapse_blank_lines_keeps_text : forall lines,
  filter has_text (collapse_blank_lines lines) =
  map Py.rstrip (filter has_text lines)
  /\ List.length (collapse_blank_lines lines) <= List.length lines.
Proof. intros lines. apply (collapse_from_text_lines lines 0). Qed.

(** A document that is as the collapser leaves documents is left as it
    is. *)
Lemma collapse_from_fixed : forall lines k,
  Forall (fun l => Py.rstrip l = l /\ is_blank l = Py.isempty l) lines ->
  no_three_empty lines = true -> leading_empty lines + k <= 2 ->
  collapse_from k lines = lines.
Proof.
  induction lines as [|l t IH]; intros k Hf Hn Hk; [reflexivity|].
  inversion Hf as [|? ? [Hr Hb] Ht]; subst.
  cbn [no_three_empty] in Hn. apply andb_true_iff in Hn as [Hl Hn].
  assert (Ht2 : leading_empty t <= 2).
  { destruct t as [|l' t']; [simpl; lia|].
    cbn [no_three_empty] in Hn. apply andb_true_iff in Hn as [Hn _].
    now apply Nat.leb_le in Hn. }
  destruct (is_blank l) eqn:B.
  - rewrite collapse_from_blank by assumption.
    symmetry in Hb. destruct l; [|discriminate].
    cbn [leading_empty Py.isempty] in Hk.
    replace (S k <=? 2) with true by (symmetry; apply Nat.leb_le; lia).
    cbn [app]. f_equal. apply IH; auto. lia.
  - rewrite collapse_from_text by assumption.
    rewrite Hr. f_equal. apply IH; auto. lia.
Qed.

(** X17: collapsing twice is collapsing once. *)
Theorem collapse_blank_lines_idempotent : forall lines,
  collapse_blank_lines (collapse_blank_lines lines) =
  collapse_blank_lines lines.
Proof.
  intros lines.
  apply (@collapse_from_fixed (collapse_blank_lines lines) 0).
  - apply collapse_from_lines.
  - apply (collapse_from_no_three lines 0).
  - pose proof (proj1 (collapse_from_no_three lines 0)) as H.
    unfold collapse_blank_lines. fold (collapse_from 0 lines). lia.
Qed.

(** ** convert_indented_code_blocks, further *)

Lemma indent_scan_done : forall before result,
  indent_scan before [] result = result.
Proof. reflexivity. Qed.

Lemma indent_scan_no_block : forall lines before result,
  opens_no_block (negb (after_text before)) lines = true ->
  indent_scan before lines result = result ++ lines.
Proof.
  induction lines as [|l t IH]; intros before result H.
  - now rewrite indent_scan_done, app_nil_r.
  - cbn [opens_no_block] in H. apply andb_true_iff in H as [Hl Ht].
    apply negb_true_iff in Hl.
    rewrite indent_scan_plain by assumption.
    rewrite IH.
    + now rewrite <- app_assoc.
    + cbn [after_text]. unfold Py.truthy. rewrite negb_involutive.
      exact Ht.
Qed.

(** X18: a document in which every indented line comes right after a line
    with text (none at the start, none after a blank line) comes back
    unchanged; so does, in particular, a document without indented
    lines. *)
Theorem convert_indented_code_blocks_no_block : forall lines,
  opens_no_block true lines = true ->
  convert_indented_code_blocks lines = lines.
Proof.
  intros lines H. unfold convert_indented_code_blocks.
  now rewrite indent_scan_no_block.
Qed.

Lemma convert_indented_code_blocks_no_block_witness :
  opens_no_block true
    [lit "1. item"; lit "    continued"; lit "    more"; []; lit "end"]
  = true
  /\ convert_indented_code_blocks
       [lit "1. item"; lit "    continued"; lit "    more"; []; lit "end"]
     = [lit "1. item"; lit "    continued"; lit "    more"; []; lit "end"].
Proof.
  split; [vm_compute; reflexivity|].
  apply (convert_indented_code_blocks_no_block
           [lit "1. item"; lit "    continued"; lit "    more"; [];
            lit "end"]).
  vm_compute. reflexivity.
Defined.

Lemma trim_blank_all_empty : forall block,
  forallb (@Py.isempty char) block = true -> trim_blank block = [].
Proof.
  intros block H. unfold trim_blank, Py.drop_while_end.
  assert (Hr : forallb (@Py.isempty char) (rev block) = true).
  { apply forallb_forall. intros x Hx. apply in_rev in Hx.
    revert x Hx. now apply forallb_forall. }
  rewrite (drop_while_all _ _ Hr). reflexivity.
Qed.

Lemma bare_block_empty : forall run,
  forallb bare run = true ->
  forallb (@Py.isempty char) (map (Py.slice_from 4) run) = true.
Proof.
  induction run as [|l r IH]; intros H; [reflexivity|].
  cbn [forallb map] in *. apply andb_true_iff in H as [Hl Hr].
  apply andb_true_iff. split; [exact Hl|now apply IH].
Qed.

(** X19: a block opened by a line of four spaces, made only of such lines
    and of empty lines and holding at least one empty line, is trimmed to
    nothing and leaves no line at all in the output. *)
Theorem indented_block_of_blanks_dropped :
  forall before first more post result,
  after_text before = false -> is_indented first = true ->
  bare first = true ->
  forallb (fun l => block_line l && bare l) more = true ->
  existsb (@Py.isempty char) more = true ->
  stops_block post = true ->
  indent_scan before ((first :: more) ++ post) result =
  indent_scan (rev (first :: more) ++ before) post result.
Proof.
  intros before first more post result Hb Hf Hbare Hm He Hp.
  assert (Hbl : forallb block_line more = true
                /\ forallb bare more = true).
  { clear - Hm. induction more as [|l r IH]; [split; reflexivity|].
    cbn [forallb] in *. apply andb_true_iff in Hm as [Hl Hr].
    apply andb_true_iff in Hl as [H1 H2]. destruct (IH Hr) as [I1 I2].
    now rewrite H1, H2, I1, I2. }
  destruct Hbl as [Hbl Hbm].
  rewrite indent_scan_block by assumption.
  assert (Hall : forallb (@Py.isempty char)
                   (map (Py.slice_from 4) (first :: more)) = true).
  { apply bare_block_empty. cbn [forallb]. now rewrite Hbare, Hbm. }
  unfold emit_block.
  replace (existsb (@Py.isempty char) (first :: more)) with true
    by (cbn [existsb]; now rewrite He, orb_true_r).
  rewrite (trim_blank_all_empty _ Hall).
  cbn [map Py.truthy Py.isempty negb andb]. now rewrite app_nil_r.
Qed.

Lemma indented_block_of_blanks_dropped_witness :
  after_text [lit " "] = false
  /\ is_indented (lit "    ") = true
  /\ bare (lit "    ") = true
  /\ forallb (fun l => block_line l && bare l) [[]; lit "    "] = true
  /\ existsb (@Py.isempty char) [[]; lit "    "] = true
  /\ stops_block [lit "end"] = true
  /\ indent_scan [lit " "] ([lit "    "; []; lit "    "] ++ [lit "end"])
       [lit " "]
     = [lit " "; lit "end"].
Proof.
  repeat (split; [vm_compute; reflexivity|]).
  rewrite (indented_block_of_blanks_dropped [lit " "] (lit "    ")
             [[]; lit "    "] [lit "end"] [lit " "]
             eq_refl eq_refl eq_refl eq_refl eq_refl eq_refl).
  vm_compute. reflexivity.
Defined.

(** ** convert_file: the assembled text, further *)

Lemma In_replace_from : forall old new c s skip,
  In c (Py.replace_from old new skip s) -> In c new \/ In c s.
Proof.
  intros old new c s. induction s as [|d t IH]; intros skip H.
  - now right.
  - cbn [Py.replace_from] in H. destruct skip as [|k].
    + destruct (Py.startswith (d :: t) old).
      * apply in_app_or in H as [H|H]; [now left|].
        apply IH in H as [H|H]; [now left|right; now right].
      * destruct H as [->|H]; [right; now left|].
        apply IH in H as [H|H]; [now left|right; now right].
    + apply IH in H as [H|H]; [now left|right; now right].
Qed.

Lemma absent_after_replace : forall old new c s,
  existsb (N.eqb c) new = false -> existsb (N.eqb c) s = false ->
  existsb (N.eqb c) (Py.replace old new s) = false.
Proof.
  intros old new c s Hn Hs.
  destruct (existsb (N.eqb c) (Py.replace old new s)) eqn:E; auto.
  apply existsb_eqb_In, In_replace_from in E as [E|E];
    apply existsb_eqb_In in E; congruence.
Qed.

Lemma nbsp_replaced : forall s,
  existsb (N.eqb NBSP) (Py.replace [NBSP] (lit " ") s) = false.
Proof.
  unfold Py.replace. induction s as [|c t IH]; [reflexivity|].
  cbn [Py.replace_from Py.startswith List.length Nat.sub].
  rewrite andb_true_r. destruct (N.eqb_spec c NBSP) as [->|Hc].
  - change (lit " ") with [32%N]. cbn [app existsb].
    apply orb_false_iff. split; [reflexivity|exact IH].
  - cbn [existsb]. apply orb_false_iff. split; [|exact IH].
    apply N.eqb_neq. congruence.
Qed.

(** X20: the assembled text holds no non-breaking space. *)
Theorem assemble_without_nbsp : forall lines,
  existsb (N.eqb NBSP) (assemble lines) = false.
Proof.
  intros lines. unfold assemble.
  set (s := Py.replace [NBSP] (lit " ") _).
  assert (Hs : existsb (N.eqb NBSP) s = false) by apply nbsp_replaced.
  assert (Hn : existsb (N.eqb NBSP) (normalize_entities s) = false).
  { unfold normalize_entities.
    do 4 (apply absent_after_replace; [reflexivity|]). exact Hs. }
  destruct (Py.truthy (normalize_entities s)); [|exact Hn].
  rewrite existsb_app. apply orb_false_iff. split; [exact Hn|reflexivity].
Qed.

Lemma strip_all_space : forall s,
  forallb Py.isspace s = true -> Py.strip s = [].
Proof.
  intros s H. unfold Py.strip, Py.rstrip, Py.drop_while_end.
  assert (Hr : forallb Py.isspace (rev s) = true).
  { apply forallb_forall. intros x Hx. apply in_rev in Hx.
    revert x Hx. now apply forallb_forall. }
  rewrite (drop_while_all _ _ Hr). reflexivity.
Qed.

Lemma join_blank_lines : forall lines,
  forallb is_blank lines = true ->
  forallb Py.isspace (Py.join [NL] (map Py.rstrip lines)) = true.
Proof.
  induction lines as [|l t IH]; intros H; [reflexivity|].
  cbn [forallb] in H. apply andb_true_iff in H as [Hl Ht].
  cbn [map Py.join]. rewrite (blank_rstrip l Hl).
  destruct t as [|l' t']; [reflexivity|].
  cbn [map] in *. cbn [app forallb]. now rewrite IH.
Qed.

Lemma assemble_of_blank_lines : forall lines,
  forallb is_blank lines = true -> assemble lines = [].
Proof.
  intros lines H. unfold assemble.
  now rewrite (strip_all_space _ (join_blank_lines lines H)).
Qed.

(** X21: when the lines the assembly step of [convert_file] joins are all
    blank, or there is none, the text it assembles is empty: nothing is
    written, not even a newline.  The lines meant are those handed to the
    join, after the three rewriting passes. *)
Theorem assemble_blank_document : forall lines,
  forallb is_blank lines = true -> assemble lines = [].
Proof. exact assemble_of_blank_lines. Qed.

Lemma assemble_blank_document_witness :
  forallb is_blank [[]; lit "   "; [NBSP]; []] = true
  /\ assemble [[]; lit "   "; [NBSP]; []] = [].
Proof.
  split; [vm_compute; reflexivity|].
  apply (assemble_blank_document [[]; lit "   "; [NBSP]; []]).
  vm_compute. reflexivity.
Defined.

(** Induction on a text two characters at a time. *)
Lemma list_pair_ind : forall (A : Type) (P : list A -> Prop),
  P [] -> (forall c, P [c]) ->
  (forall c1 c2 t, P t -> P (c2 :: t) -> P (c1 :: c2 :: t)) ->
  forall s, P s.
Proof.
  intros A P H0 H1 H2 s.
  assert (H : P s /\ forall c, P (c :: s)).
  { induction s as [|d t [IH1 IH2]]; split; auto. }
  apply H.
Qed.

Lemma replace2_single : forall a b new c,
  Py.replace_from [a; b] new 0 [c] = [c].
Proof.
  intros a b new c. cbn [Py.replace_from Py.startswith].
  now rewrite andb_false_r.
Qed.

Lemma replace2_cons2 : forall a b new c1 c2 t,
  Py.replace_from [a; b] new 0 (c1 :: c2 :: t) =
  if (c1 =? a)%N && (c2 =? b)%N
  then new ++ Py.replace_from [a; b] new 0 t
  else c1 :: Py.replace_from [a; b] new 0 (c2 :: t).
Proof.
  intros a b new c1 c2 t.
  cbn [Py.replace_from Py.startswith List.length Nat.sub].
  now rewrite andb_true_r.
Qed.

Lemma pair_free_tail : forall a b c t,
  pair_free a b (c :: t) = true -> pair_free a b t = true.
Proof.
  intros a b c [|d t] H; [reflexivity|].
  cbn [pair_free] in H. now apply andb_true_iff in H as [_ H].
Qed.

Lemma pair_free_past : forall a b x y,
  existsb (N.eqb a) x = false ->
  pair_free a b (x ++ y) = pair_free a b y.
Proof.
  intros a b x y. induction x as [|c x IH]; intros H; [reflexivity|].
  cbn [existsb] in H. apply orb_false_iff in H as [Hc Hx].
  specialize (IH Hx). cbn [app pair_free].
  destruct (x ++ y) as [|d z].
  - exact IH.
  - rewrite N.eqb_sym in Hc. rewrite Hc. exact IH.
Qed.

Lemma pair_free_snoc : forall a b s c,
  pair_free a b s = true -> (c =? b)%N = false ->
  pair_free a b (s ++ [c]) = true.
Proof.
  intros a b s c. induction s as [|d t IH]; intros H Hc; [reflexivity|].
  cbn [app]. destruct t as [|e t'].
  - cbn [app pair_free]. now rewrite Hc, andb_false_r.
  - cbn [pair_free] in H. apply andb_true_iff in H as [H1 H2].
    cbn [app pair_free] in *. rewrite H1. now apply IH.
Qed.

Lemma contains_pair : forall a b s,
  Py.contains s [a; b] = negb (pair_free a b s).
Proof.
  intros a b s. induction s as [|c t IH]; [reflexivity|].
  cbn [Py.contains Py.startswith]. rewrite IH.
  destruct t as [|d t'].
  - cbn [pair_free]. now rewrite andb_false_r.
  - cbn [pair_free]. rewrite andb_true_r.
    destruct ((c =? a)%N && (d =? b)%N); reflexivity.
Qed.

(** Replacing the pairs [a b] by a text without [a] that does not begin
    with [b'] leaves no pair [a b'], when [b'] is [b] or there was no such
    pair before. *)
Lemma replace_pair_free : forall (a b b' : char) (new : str),
  existsb (N.eqb a) new = false ->
  match new with [] => false | n :: _ => negb (n =? b')%N end = true ->
  forall s : str,
  b' = b \/ pair_free a b' s = true ->
  pair_free a b' (Py.replace_from [a; b] new 0 s) = true
  /\ (forall t, Py.replace_from [a; b] new 0 s = b' :: t ->
      exists t', s = b' :: t').
Proof.
  intros a b b' new Ha Hh s. induction s as [| c | c1 c2 t IHt IHc]
    using list_pair_ind; intros Hs.
  - split; [reflexivity|discriminate].
  - rewrite replace2_single. split; [reflexivity|].
    intros t E. injection E as -> _. now exists [].
  - assert (Hs2 : b' = b \/ pair_free a b' (c2 :: t) = true).
    { destruct Hs as [Hs|Hs]; [now left|right].
      eapply pair_free_tail, Hs. }
    assert (Hs1 : b' = b \/ pair_free a b' t = true).
    { destruct Hs2 as [Hs2|Hs2]; [now left|right].
      eapply pair_free_tail, Hs2. }
    destruct (IHt Hs1) as [It _]. destruct (IHc Hs2) as [Ic Ih].
    rewrite replace2_cons2.
    destruct ((c1 =? a)%N && (c2 =? b)%N) eqn:M.
    + split.
      * now rewrite pair_free_past.
      * intros t0 E. destruct new as [|n r]; [discriminate|].
        injection E as -> _. now rewrite N.eqb_refl in Hh.
    + split.
      * cbn [pair_free].
        destruct (Py.replace_from [a; b] new 0 (c2 :: t)) as [|d y];
          [reflexivity|].
        rewrite Ic, andb_true_r. apply negb_true_iff.
        destruct (N.eqb_spec c1 a) as [->|]; [|reflexivity].
        destruct (N.eqb_spec d b') as [->|]; [|reflexivity].
        destruct (Ih y eq_refl) as [t' E]. injection E as -> _.
        destruct Hs as [->|Hs].
        -- rewrite !N.eqb_refl in M. discriminate.
        -- cbn [pair_free] in Hs. rewrite !N.eqb_refl in Hs. discriminate.
      * intros t0 E. injection E as -> _. now exists (c2 :: t).
Qed.

Lemma replace_pair_free_text : forall (a b b' : char) (new s : str),
  existsb (N.eqb a) new = false ->
  match new with [] => false | n :: _ => negb (n =? b')%N end = true ->
  b' = b \/ pair_free a b' s = true ->
  pair_free a b' (Py.replace [a; b] new s) = true.
Proof.
  intros a b b' new s Ha Hh Hs.
  now destruct (@replace_pair_free a b b' new Ha Hh s Hs).
Qed.

(** Where the pair does not occur, replacing it changes nothing. *)
Lemma replace_absent : forall a b new s,
  pair_free a b s = true -> Py.replace [a; b] new s = s.
Proof.
  intros a b new s. unfold Py.replace.
  induction s as [| c | c1 c2 t IHt IHc] using list_pair_ind; intros H.
  - reflexivity.
  - apply replace2_single.
  - rewrite replace2_cons2. cbn [pair_free] in H.
    apply andb_true_iff in H as [H1 H2]. apply negb_true_iff in H1.
    rewrite H1. f_equal. now apply IHc.
Qed.

(** After the four replacements none of the four escaped characters is
    left. *)
Lemma normalize_entities_pair_free : forall s,
  pair_free (chr "\") (chr "<") (normalize_entities s) = true
  /\ pair_free (chr "\") (chr ">") (normalize_entities s) = true
  /\ pair_free (chr "\") (chr "[") (normalize_entities s) = true
  /\ pair_free (chr "\") (chr "]") (normalize_entities s) = true.
Proof.
  intros s. unfold normalize_entities.
  set (t1 := Py.replace (lit "\<") (lit "&lt;") s).
  set (t2 := Py.replace (lit "\>") (lit "&gt;") t1).
  set (t3 := Py.replace (lit "\[") (lit "&#91;") t2).
  set (t4 := Py.replace (lit "\]") (lit "&#93;") t3).
  assert (L1 : pair_free (chr "\") (chr "<") t1 = true).
  { apply (@replace_pair_free_text (chr "\") (chr "<") (chr "<")
             (lit "&lt;") s);
      [reflexivity|reflexivity|now left]. }
  assert (L2 : pair_free (chr "\") (chr "<") t2 = true).
  { apply (@replace_pair_free_text (chr "\") (chr ">") (chr "<")
             (lit "&gt;") t1);
      [reflexivity|reflexivity|now right]. }
  assert (L3 : pair_free (chr "\") (chr "<") t3 = true).
  { apply (@replace_pair_free_text (chr "\") (chr "[") (chr "<")
             (lit "&#91;") t2);
      [reflexivity|reflexivity|now right]. }
  assert (G2 : pair_free (chr "\") (chr ">") t2 = true).
  { apply (@replace_pair_free_text (chr "\") (chr ">") (chr ">")
             (lit "&gt;") t1);
      [reflexivity|reflexivity|now left]. }
  assert (G3 : pair_free (chr "\") (chr ">") t3 = true).
  { apply (@replace_pair_free_text (chr "\") (chr "[") (chr ">")
             (lit "&#91;") t2);
      [reflexivity|reflexivity|now right]. }
  assert (B3 : pair_free (chr "\") (chr "[") t3 = true).
  { apply (@replace_pair_free_text (chr "\") (chr "[") (chr "[")
             (lit "&#91;") t2);
      [reflexivity|reflexivity|now left]. }
  repeat split.
  - apply (@replace_pair_free_text (chr "\") (chr "]") (chr "<")
             (lit "&#93;") t3);
      [reflexivity|reflexivity|now right].
  - apply (@replace_pair_free_text (chr "\") (chr "]") (chr ">")
             (lit "&#93;") t3);
      [reflexivity|reflexivity|now right].
  - apply (@replace_pair_free_text (chr "\") (chr "]") (chr "[")
             (lit "&#93;") t3);
      [reflexivity|reflexivity|now right].
  - apply (@replace_pair_free_text (chr "\") (chr "]") (chr "]")
             (lit "&#93;") t3);
      [reflexivity|reflexivity|now left].
Qed.

Lemma assemble_pair_free : forall lines b,
  (NL =? b)%N = false ->
  (forall s, pair_free (chr "\") b (normalize_entities s) = true) ->
  Py.contains (assemble lines) [chr "\"; b] = false.
Proof.
  intros lines b Hb H. rewrite contains_pair. apply negb_false_iff.
  unfold assemble. destruct (Py.truthy _); [|apply H].
  apply pair_free_snoc; [apply H|exact Hb].
Qed.

(** X22: the assembled text holds none of the four escaped characters: no
    backslash in it is followed by an angle or a square bracket. *)
Theorem assemble_without_escapes : forall lines,
  Py.contains (assemble lines) (lit "\<") = false
  /\ Py.contains (assemble lines) (lit "\>") = false
  /\ Py.contains (assemble lines) (lit "\[") = false
  /\ Py.contains (assemble lines) (lit "\]") = false.
Proof.
  intros lines. repeat split.
  - apply (@assemble_pair_free lines (chr "<")); [reflexivity|].
    intros s. apply normalize_entities_pair_free.
  - apply (@assemble_pair_free lines (chr ">")); [reflexivity|].
    intros s. apply normalize_entities_pair_free.
  - apply (@assemble_pair_free lines (chr "[")); [reflexivity|].
    intros s. apply normalize_entities_pair_free.
  - apply (@assemble_pair_free lines (chr "]")); [reflexivity|].
    intros s. apply normalize_entities_pair_free.
Qed.

(** X23: the replacement of the escaped characters by entities is
    idempotent: applied to its own result it changes nothing. *)
Theorem normalize_entities_idempotent : forall s,
  normalize_entities (normalize_entities s) = normalize_entities s.
Proof.
  intros s.
  destruct (normalize_entities_pair_free s) as [H1 [H2 [H3 H4]]].
  set (t := normalize_entities s) in *.
  unfold normalize_entities at 1.
  change (lit "\<") with [chr "\"; chr "<"].
  change (lit "\>") with [chr "\"; chr ">"].
  change (lit "\[") with [chr "\"; chr "["].
  change (lit "\]") with [chr "\"; chr "]"].
  rewrite (@replace_absent (chr "\") (chr "<") (lit "&lt;") t H1).
  rewrite (@replace_absent (chr "\") (chr ">") (lit "&gt;") t H2).
  rewrite (@replace_absent (chr "\") (chr "[") (lit "&#91;") t H3).
  apply (@replace_absent (chr "\") (chr "]") (lit "&#93;") t H4).
Qed.

(** ** SUMMARY_ROW_RE, further *)

Lemma group2_dollar_sound : forall r g,
  SummaryRowRe.group2_dollar r = Some g ->
  exists tail, r = g ++ tail
               /\ forallb SummaryRowRe.dot g = true
               /\ SummaryRowRe.at_dollar tail = true.
Proof.
  induction r as [|c t IH]; intros g H.
  - injection H as <-. now exists [].
  - cbn [SummaryRowRe.group2_dollar] in H.
    assert (Hstop : (if SummaryRowRe.at_dollar (c :: t)
                     then Some [] else None) = Some g ->
                    exists tail, c :: t = g ++ tail
                      /\ forallb SummaryRowRe.dot g = true
                      /\ SummaryRowRe.at_dollar tail = true).
    { destruct (SummaryRowRe.at_dollar (c :: t)) eqn:D; [|discriminate].
      intros E. injection E as <-. now exists (c :: t). }
    destruct (SummaryRowRe.dot c) eqn:Dc; [|now apply Hstop].
    destruct (SummaryRowRe.group2_dollar t) as [g'|]; [|now apply Hstop].
    injection H as <-. destruct (IH g' eq_refl) as [tail [E [Hg Ht]]].
    exists tail. cbn [forallb app]. rewrite Dc, Hg. repeat split; auto.
    now f_equal.
Qed.

Lemma spaces_group2_dollar_sound : forall r g,
  SummaryRowRe.spaces_group2_dollar r = Some g -> match_rest r g.
Proof.
  assert (Hg2 : forall r g, SummaryRowRe.group2_dollar r = Some g ->
                            match_rest r g).
  { intros r g H. apply group2_dollar_sound in H as [tail [E [Hg Ht]]].
    exists [], tail. repeat split; auto. }
  induction r as [|c t IH]; intros g H.
  - now apply Hg2.
  - cbn [SummaryRowRe.spaces_group2_dollar] in H.
    destruct (Py.isspace c) eqn:Sc; [|now apply Hg2].
    destruct (SummaryRowRe.spaces_group2_dollar t) as [g'|];
      [|now apply Hg2].
    injection H as <-.
    destruct (IH g' eq_refl) as [ws [tail [E [Hw [Hg Ht]]]]].
    exists (c :: ws), tail. cbn [forallb app]. rewrite Sc, Hw.
    repeat split; auto. now f_equal.
Qed.

Lemma colon_tail_sound : forall r g,
  SummaryRowRe.colon_tail r = Some g ->
  exists r', r = lit ":**" ++ r' /\ match_rest r' g.
Proof.
  intros r g H. unfold SummaryRowRe.colon_tail in H.
  destruct (Py.startswith r (lit ":**")) eqn:S; [|discriminate].
  exists (Py.slice_from 3 r). split.
  - exact (startswith_split (lit ":**") r S).
  - now apply spaces_group2_dollar_sound.
Qed.

Lemma group1_lazy_sound : forall r g1 g1' g2,
  SummaryRowRe.group1_lazy g1 r = Some (g1', g2) ->
  exists x r', g1' = g1 ++ x
               /\ forallb SummaryRowRe.dot x = true
               /\ r = x ++ lit ":**" ++ r'
               /\ match_rest r' g2.
Proof.
  assert (Hc : forall r g1 g2, SummaryRowRe.colon_tail r = Some g2 ->
            exists x r', g1 = g1 ++ x
               /\ forallb SummaryRowRe.dot x = true
               /\ r = x ++ lit ":**" ++ r'
               /\ match_rest r' g2).
  { intros r g1 g2 H. apply colon_tail_sound in H as [r' [E M]].
    exists [], r'. rewrite app_nil_r. repeat split; auto. }
  induction r as [|c t IH]; intros g1 g1' g2;
    cbn [SummaryRowRe.group1_lazy];
    destruct (SummaryRowRe.colon_tail _) as [g|] eqn:C.
  - intros H. injection H as <- <-. now apply Hc.
  - discriminate.
  - intros H. injection H as <- <-. now apply Hc.
  - destruct (SummaryRowRe.dot c) eqn:Dc; [|discriminate].
    intros H. apply IH in H as [x [r' [E [Hx [Er M]]]]].
    exists (c :: x), r'. cbn [forallb app]. rewrite Dc, Hx.
    repeat split; auto.
    + now rewrite E, <- app_assoc.
    + now f_equal.
Qed.

(** X24: a text the pattern matches reads: two asterisks, group 1, a colon
    and two asterisks, whitespace, group 2, and nothing more but perhaps a
    last newline.  Group 1 is not empty, and neither group holds a
    newline. *)
Theorem rmatch_sound : forall s g1 g2,
  SummaryRowRe.rmatch s = Some (g1, g2) ->
  (exists r, s = lit "**" ++ g1 ++ lit ":**" ++ r /\ match_rest r g2)
  /\ Py.truthy g1 = true
  /\ forallb SummaryRowRe.dot g1 = true.
Proof.
  intros s g1 g2 H. split; [|split].
  - destruct s as [|a [|b [|c t]]]; try discriminate.
    cbn [SummaryRowRe.rmatch] in H.
    destruct (N.eqb_spec a (chr "*")) as [->|]; [|discriminate].
    destruct (N.eqb_spec b (chr "*")) as [->|]; [|discriminate].
    cbn [andb] in H. destruct (SummaryRowRe.dot c); [|discriminate].
    apply group1_lazy_sound in H as [x [r' [E [Hx [Er M]]]]].
    exists r'. split; auto. rewrite E, Er. reflexivity.
  - exact (rmatch_label_nonempty _ H).
  - destruct s as [|a [|b [|c t]]]; try discriminate.
    cbn [SummaryRowRe.rmatch] in H.
    destruct ((a =? chr "*")%N && (b =? chr "*")%N); [|discriminate].
    cbn [andb] in H. destruct (SummaryRowRe.dot c) eqn:Dc; [|discriminate].
    apply group1_lazy_sound in H as [x [r' [E [Hx _]]]].
    rewrite E. cbn [app forallb]. now rewrite Dc, Hx.
Qed.

Lemma rmatch_sound_witness :
  SummaryRowRe.rmatch (lit "**Name:**  John Doe") =
    Some (lit "Name", lit "John Doe")
  /\ (exists r, lit "**Name:**  John Doe" =
                lit "**" ++ lit "Name" ++ lit ":**" ++ r
                /\ match_rest r (lit "John Doe")).
Proof.
  split; [vm_compute; reflexivity|].
  apply (rmatch_sound (lit "**Name:**  John Doe")).
  vm_compute. reflexivity.
Defined.

(** ** convert_file: how the assembled text begins *)

Lemma replace_head_kept : forall old new s,
  head_kept Py.isspace s = true ->
  Py.truthy new && head_kept Py.isspace new = true
  \/ Py.startswith s old = false ->
  head_kept Py.isspace (Py.replace old new s) = true.
Proof.
  intros old new [|c t] Hs H; [reflexivity|].
  unfold Py.replace. cbn [Py.replace_from].
  destruct (Py.startswith (c :: t) old).
  - destruct H as [H|H]; [|discriminate].
    destruct new as [|n r]; [discriminate|]. exact H.
  - exact Hs.
Qed.

Lemma nbsp_not_at_head : forall s,
  head_kept Py.isspace s = true -> Py.startswith s [NBSP] = false.
Proof.
  intros [|c t] H; [reflexivity|].
  cbn [Py.startswith]. rewrite andb_true_r.
  destruct (N.eqb_spec c NBSP) as [->|]; [discriminate|reflexivity].
Qed.

(** X25: the assembled text does not begin with whitespace. *)
Theorem assemble_head : forall lines,
  head_kept Py.isspace (assemble lines) = true.
Proof.
  intros lines. unfold assemble.
  set (joined := Py.strip (Py.join [NL] (map Py.rstrip lines))).
  assert (H0 : head_kept Py.isspace joined = true) by apply strip_head.
  assert (H1 : head_kept Py.isspace
                 (Py.replace [NBSP] (lit " ") joined) = true).
  { apply replace_head_kept; [exact H0|right].
    now apply nbsp_not_at_head. }
  assert (H2 : head_kept Py.isspace
                 (normalize_entities
                    (Py.replace [NBSP] (lit " ") joined)) = true).
  { unfold normalize_entities.
    do 4 (apply replace_head_kept; [|left; reflexivity]). exact H1. }
  destruct (normalize_entities (Py.replace [NBSP] (lit " ") joined))
    as [|c t]; [reflexivity|exact H2].
Qed.

(** ** split_table_row on rows without backslashes *)

Lemma split_on_nonempty : forall sep s, split_on sep s <> [].
Proof.
  intros sep [|c t]; cbn [split_on]; [discriminate|].
  destruct (c =? sep)%N; [discriminate|].
  destruct (split_on sep t); discriminate.
Qed.

(** Without backslashes the loop cuts the text at the markers. *)
Lemma split_fold_pieces_plain : forall body cs cc,
  forallb (fun ch => negb (ch =? chr "\")%N) body = true ->
  let st := fold_left split_step body
              {| cells := cs; cell_chars := cc;
                 escape := false; started := true |} in
  cells st =
    cs ++ map Py.strip (removelast (prepend cc (split_on (chr "|") body)))
  /\ cell_chars st = last (prepend cc (split_on (chr "|") body)) [].
Proof.
  induction body as [|c t IH]; intros cs cc H; cbn zeta.
  - cbn. now rewrite !app_nil_r.
  - cbn [forallb] in H. apply andb_true_iff in H as [Hc Ht].
    apply negb_true_iff in Hc.
    assert (E : split_step {| cells := cs; cell_chars := cc;
                              escape := false; started := true |} c =
                if (c =? chr "|")%N
                then {| cells := cs ++ [Py.strip cc]; cell_chars := [];
                        escape := false; started := true |}
                else {| cells := cs; cell_chars := cc ++ [c];
                        escape := false; started := true |}).
    { unfold split_step. cbn [started negb escape cells cell_chars].
      rewrite Hc. cbn [andb]. rewrite andb_true_r. reflexivity. }
    cbn [fold_left]. rewrite E. cbn [split_on].
    pose proof (split_on_nonempty (chr "|") t) as Hne.
    destruct (c =? chr "|")%N.
    + destruct (IH (cs ++ [Py.strip cc]) [] Ht) as [I1 I2].
      cbn zeta in I1, I2. rewrite I1, I2.
      destruct (split_on (chr "|") t) as [|h r]; [contradiction|].
      cbn [prepend app]. rewrite app_nil_r.
      cbn [removelast last map]. rewrite <- app_assoc. split; reflexivity.
    + destruct (IH cs (cc ++ [c]) Ht) as [I1 I2].
      cbn zeta in I1, I2. rewrite I1, I2.
      destruct (split_on (chr "|") t) as [|h r]; [contradiction|].
      cbn [prepend]. rewrite <- !app_assoc. split; reflexivity.
Qed.

Lemma finish_pieces : forall (cs : list str) (cc : str),
  (if Py.truthy cc then cs ++ [Py.strip cc] else cs) =
  cs ++ (if Py.truthy cc then [Py.strip cc] else []).
Proof.
  intros cs cc. destruct (Py.truthy cc); [reflexivity|].
  now rewrite app_nil_r.
Qed.

(** X26: on a row without a backslash, [split_table_row] is a plain split
    at the markers of the text after the first marker: every piece but the
    last is a cell, trimmed, and so is the last piece unless it is empty. *)
Theorem split_table_row_plain : forall line,
  existsb (N.eqb (chr "\")) line = false ->
  split_table_row line =
  cells_of_pieces
    (split_on (chr "|") (after_first_marker (Py.rstrip_chars [NL] line))).
Proof.
  intros line H. unfold split_table_row. rewrite split_skips_to_marker.
  set (body := after_first_marker (Py.rstrip_chars [NL] line)).
  assert (Hb : forallb (fun ch => negb (ch =? chr "\")%N) body = true).
  { apply forallb_forall. intros c Hc. apply negb_true_iff.
    destruct (N.eqb_spec c (chr "\")) as [->|]; auto.
    destruct (after_first_marker_suffix (Py.rstrip_chars [NL] line))
      as [pre Ep].
    destruct (drop_while_end_prefix (fun c => existsb (N.eqb c) [NL]) line)
      as [post [El _]].
    fold (Py.rstrip_chars [NL] line) in El.
    assert (Hin : In (chr "\") line).
    { rewrite El, Ep. apply in_or_app. left. apply in_or_app. now right. }
    apply existsb_eqb_In in Hin. congruence. }
  destruct (split_fold_pieces_plain body [] [] Hb) as [I1 I2].
  cbn zeta in I1, I2. unfold cells_of_body, split_finish, split_started.
  rewrite I1, I2. unfold cells_of_pieces.
  pose proof (split_on_nonempty (chr "|") body) as Hne.
  destruct (split_on (chr "|") body) as [|h r]; [contradiction|].
  cbn [prepend app]. apply finish_pieces.
Qed.

Lemma split_table_row_plain_witness :
  existsb (N.eqb (chr "\")) (lit "x | a |  | b c ") = false
  /\ split_on (chr "|") (lit " a |  | b c ") =
     [lit " a "; lit "  "; lit " b c "]
  /\ split_table_row (lit "x | a |  | b c ") = [lit "a"; []; lit "b c"].
Proof.
  split; [reflexivity|]. split; [vm_compute; reflexivity|].
  rewrite (split_table_row_plain (lit "x | a |  | b c ") eq_refl).
  vm_compute. reflexivity.
Defined.

(** ** SUMMARY_ROW_RE on a well-formed cell *)

Lemma group2_dollar_line : forall g,
  forallb SummaryRowRe.dot g = true -> SummaryRowRe.group2_dollar g = Some g.
Proof.
  induction g as [|c t IH]; intros H; [reflexivity|].
  cbn [forallb] in H. apply andb_true_iff in H as [Hc Ht].
  cbn [SummaryRowRe.group2_dollar]. now rewrite Hc, IH.
Qed.

Lemma spaces_group2_dollar_line : forall ws g,
  forallb Py.isspace ws = true -> head_kept Py.isspace g = true ->
  forallb SummaryRowRe.dot g = true ->
  SummaryRowRe.spaces_group2_dollar (ws ++ g) = Some g.
Proof.
  induction ws as [|c ws IH]; intros g Hw Hh Hg.
  - cbn [app]. destruct g as [|d g]; [reflexivity|].
    cbn [SummaryRowRe.spaces_group2_dollar]. simpl in Hh.
    apply negb_true_iff in Hh. rewrite Hh.
    now apply group2_dollar_line.
  - cbn [forallb] in Hw. apply andb_true_iff in Hw as [Hc Hw].
    cbn [app SummaryRowRe.spaces_group2_dollar]. now rewrite Hc, IH.
Qed.

(** Where the colon and the asterisks do not occur in [y], the lazy group
    runs through [y] and stops at the first colon with asterisks after
    it. *)
Lemma group1_lazy_through : forall y g1 r g2,
  forallb SummaryRowRe.dot y = true ->
  Py.contains y (lit ":**") = false ->
  SummaryRowRe.colon_tail (lit ":**" ++ r) = Some g2 ->
  SummaryRowRe.group1_lazy g1 (y ++ lit ":**" ++ r) = Some (g1 ++ y, g2).
Proof.
  induction y as [|c y IH]; intros g1 r g2 Hd Hc Ht.
  - cbn [app]. rewrite app_nil_r.
    destruct (lit ":**" ++ r) eqn:E; [discriminate|].
    cbn [SummaryRowRe.group1_lazy]. now rewrite Ht.
  - cbn [forallb] in Hd. apply andb_true_iff in Hd as [Hdc Hdy].
    cbn [Py.contains] in Hc. apply orb_false_iff in Hc as [Hs Hc].
    cbn [app SummaryRowRe.group1_lazy].
    assert (Hn : SummaryRowRe.colon_tail (c :: y ++ lit ":**" ++ r) = None).
    { unfold SummaryRowRe.colon_tail.
      replace (Py.startswith (c :: y ++ lit ":**" ++ r) (lit ":**"))
        with false; [reflexivity|].
      destruct y as [|d [|e y]].
      - cbn. now rewrite andb_false_r.
      - cbn. now rewrite !andb_false_r.
      - cbn in Hs |- *. now rewrite Hs. }
    rewrite Hn, Hdc. rewrite (IH (g1 ++ [c]) r g2 Hdy Hc Ht).
    now rewrite <- app_assoc.
Qed.

(** X27: a cell made of two asterisks, a label, a colon and two asterisks,
    whitespace and details is matched with the label as group 1 and the
    details as group 2, provided the label is not empty, neither holds a
    newline, the label holds no colon followed by two asterisks, and the
    details do not begin with whitespace. *)
Theorem rmatch_label_details : forall label ws details,
  Py.truthy label = true ->
  forallb SummaryRowRe.dot label = true ->
  Py.contains label (lit ":**") = false ->
  forallb Py.isspace ws = true ->
  head_kept Py.isspace details = true ->
  forallb SummaryRowRe.dot details = true ->
  SummaryRowRe.rmatch (lit "**" ++ label ++ lit ":**" ++ ws ++ details)
  = Some (label, details).
Proof.
  intros label ws details Hl Hd Hc Hw Hh Hg.
  destruct label as [|c y]; [discriminate|].
  cbn [forallb] in Hd. apply andb_true_iff in Hd as [Hdc Hdy].
  cbn [Py.contains] in Hc. apply orb_false_iff in Hc as [_ Hc].
  change (lit "**" ++ (c :: y) ++ lit ":**" ++ ws ++ details)
    with (chr "*" :: chr "*" :: c :: y ++ lit ":**" ++ ws ++ details).
  cbn [SummaryRowRe.rmatch]. rewrite !N.eqb_refl, Hdc. cbn [andb].
  apply (group1_lazy_through y [c]); auto.
  unfold SummaryRowRe.colon_tail.
  change (Py.startswith (lit ":**" ++ ws ++ details) (lit ":**"))
    with (Py.startswith (lit ":**" ++ ws ++ details) (lit ":**")).
  rewrite startswith_app.
  change (Py.slice_from 3 (lit ":**" ++ ws ++ details)) with (ws ++ details).
  now apply spaces_group2_dollar_line.
Qed.

Lemma rmatch_label_details_witness :
  Py.truthy (lit "Release date") = true
  /\ forallb SummaryRowRe.dot (lit "Release date") = true
  /\ Py.contains (lit "Release date") (lit ":**") = false
  /\ forallb Py.isspace (lit "  ") = true
  /\ head_kept Py.isspace (lit "1 May: final") = true
  /\ forallb SummaryRowRe.dot (lit "1 May: final") = true
  /\ SummaryRowRe.rmatch (lit "**Release date:**  1 May: final")
     = Some (lit "Release date", lit "1 May: final").
Proof.
  repeat (split; [vm_compute; reflexivity|]).
  apply (rmatch_label_details (lit "Release date") (lit "  ")
           (lit "1 May: final"));
    vm_compute; reflexivity.
Defined.

(** ** convert_file: a blank document through the whole pipeline *)

Lemma blank_is_plain : forall l, is_blank l = true -> is_plain_line l = true.
Proof.
  intros l H. unfold is_plain_line, is_table_line.
  destruct (Py.startswith l (lit "|")) eqn:S; [|reflexivity].
  exfalso. apply startswith_head in S as [t E].
  assert (Hin : In (chr "|") (Py.strip l)).
  { apply In_strip; [rewrite E; now left|reflexivity]. }
  unfold is_blank in H. destruct (Py.strip l); [exact Hin|discriminate].
Qed.

Lemma blank_lines_plain : forall lines,
  forallb is_blank lines = true -> forallb is_plain_line lines = true.
Proof.
  induction lines as [|l t IH]; intros H; [reflexivity|].
  cbn [forallb] in *. apply andb_true_iff in H as [Hl Ht].
  now rewrite (blank_is_plain l Hl), IH.
Qed.

Lemma unindented_opens_no_block : forall lines after_blank,
  existsb is_indented lines = false ->
  opens_no_block after_blank lines = true.
Proof.
  induction lines as [|l t IH]; intros after_blank H; [reflexivity|].
  cbn [existsb] in H. apply orb_false_iff in H as [Hl Ht].
  cbn [opens_no_block]. now rewrite Hl, IH.
Qed.

Lemma collapse_from_blank_lines : forall lines k,
  forallb is_blank lines = true ->
  forallb is_blank (collapse_from k lines) = true.
Proof.
  induction lines as [|l t IH]; intros k H; [reflexivity|].
  cbn [forallb] in H. apply andb_true_iff in H as [Hl Ht].
  rewrite collapse_from_blank by assumption.
  rewrite forallb_app, IH by assumption.
  destruct (S k <=? 2); reflexivity.
Qed.

(** X28: for the lines of a document that are all blank and of which none
    starts with four spaces, the three rewriting passes and the assembly
    leave nothing: the text written is empty. *)
Theorem convert_lines_blank_document : forall lines,
  forallb is_blank lines = true -> existsb is_indented lines = false ->
  convert_lines lines = [].
Proof.
  intros lines Hb Hi. unfold convert_lines.
  rewrite (rewrite_plain_document lines (blank_lines_plain lines Hb)).
  unfold convert_indented_code_blocks.
  rewrite indent_scan_no_block
    by (now apply unindented_opens_no_block).
  cbn [app]. apply assemble_of_blank_lines.
  now apply (collapse_from_blank_lines lines 0).
Qed.

Lemma convert_lines_blank_document_witness :
  forallb is_blank [[]; lit "   "; [NBSP]; [9%N; 32%N]; []; []] = true
  /\ existsb is_indented [[]; lit "   "; [NBSP]; [9%N; 32%N]; []; []] = false
  /\ convert_lines [[]; lit "   "; [NBSP]; [9%N; 32%N]; []; []] = [].
Proof.
  split; [vm_compute; reflexivity|]. split; [vm_compute; reflexivity|].
  apply (convert_lines_blank_document
           [[]; lit "   "; [NBSP]; [9%N; 32%N]; []; []]);
    vm_compute; reflexivity.
Defined.
